(** * zsh-history-cleaner: a shallow embedding of the filtering engine

    The development follows [src/zsh-history-cleaner.py]: the [FilterRule]
    class, and the parsing, decision, normalisation and orchestration
    methods of [ZshHistoryCleaner].

    Conventions of the embedding.
    - A Python [str] is a [string]; a character is a code point below 256,
      and the character classes used by the program ([str.strip],
      [str.lower], the regex classes [\s], [\d] and [.]) are the ones
      Python defines on that range.
    - A Python exception is a value of [exn] carried by the [result] monad.
    - The regular expressions that are fixed in the source are translated
      by hand into matching functions; the expressions that a user supplies
      in a rule are compiled by Python's [re] library, which is outside the
      repository and therefore a parameter ([re_engine]).
    - Counters are Python integers, hence [Z].
    - Logging ([self.log]) only prints and is not modelled. *)

From Stdlib Require Import ZArith Ascii String Lia.
From stdpp Require Import base strings gmap list.

Local Open Scope Z_scope.

(* stdpp keeps [simpl] from unfolding string concatenation; the proofs
   below compute with it. *)
#[local] Arguments String.append !_ _ / : simpl nomatch.

(** ** Python string primitives *)

Module PyStr.

Definition LF : ascii := "010"%char.
Definition CR : ascii := "013"%char.
Definition backslash : ascii := "092"%char.
Definition space : ascii := "032"%char.
Definition newline : string := String LF EmptyString.

(** [str.isspace] on one character; also the regex class [\s]. *)
Definition isspace (c : ascii) : bool :=
  let n := nat_of_ascii c in
  ((9 <=? n) && (n <=? 13) || (28 <=? n) && (n <=? 32)
   || (n =? 133) || (n =? 160))%nat.

(** The regex class [\d]. *)
Definition isdigit (c : ascii) : bool :=
  let n := nat_of_ascii c in ((48 <=? n) && (n <=? 57))%nat.

(** The regex class [.] (without DOTALL): anything but a line feed. *)
Definition isdot (c : ascii) : bool := negb (Ascii.eqb c LF).

Definition lower_char (c : ascii) : ascii :=
  let n := nat_of_ascii c in
  if ((65 <=? n) && (n <=? 90)
      || (192 <=? n) && (n <=? 222) && negb (n =? 215))%nat
  then ascii_of_nat (n + 32) else c.

(** [s.lower()] *)
Fixpoint lower (s : string) : string :=
  match s with
  | EmptyString => EmptyString
  | String c s' => String (lower_char c) (lower s')
  end.

Definition is_empty (s : string) : bool :=
  match s with EmptyString => true | _ => false end.

(** [all(p(c) for c in s)] *)
Fixpoint all (p : ascii -> bool) (s : string) : bool :=
  match s with
  | EmptyString => true
  | String c s' => p c && all p s'
  end.

(** [text.startswith(p)] *)
Fixpoint startswith (p text : string) : bool :=
  match p, text with
  | EmptyString, _ => true
  | String a p', String b text' => Ascii.eqb a b && startswith p' text'
  | String _ _, EmptyString => false
  end.

(** [p in text] *)
Fixpoint contains (p text : string) : bool :=
  startswith p text ||
  match text with
  | EmptyString => false
  | String _ text' => contains p text'
  end.

(** [text.endswith(p)] *)
Fixpoint endswith (p text : string) : bool :=
  String.eqb text p ||
  match text with
  | EmptyString => false
  | String _ text' => endswith p text'
  end.

(** The longest prefix whose characters satisfy [p], and the rest. *)
Fixpoint span (p : ascii -> bool) (s : string) : string * string :=
  match s with
  | EmptyString => (EmptyString, EmptyString)
  | String c s' =>
      if p c then let '(a, b) := span p s' in (String c a, b)
      else (EmptyString, s)
  end.

Fixpoint lstrip_by (p : ascii -> bool) (s : string) : string :=
  match s with
  | EmptyString => EmptyString
  | String c s' => if p c then lstrip_by p s' else s
  end.

Fixpoint rstrip_by (p : ascii -> bool) (s : string) : string :=
  match s with
  | EmptyString => EmptyString
  | String c s' =>
      let r := rstrip_by p s' in
      if is_empty r && p c then EmptyString else String c r
  end.

(** [s.strip()] *)
Definition strip (s : string) : string :=
  rstrip_by isspace (lstrip_by isspace s).

Definition is_crlf (c : ascii) : bool := Ascii.eqb c LF || Ascii.eqb c CR.

(** [s.rstrip] of line feeds and carriage returns. *)
Definition rstrip_newlines (s : string) : string := rstrip_by is_crlf s.

(** [len(s)] *)
Definition len (s : string) : Z := Z.of_nat (String.length s).

(** The text obtained by writing [parts] one after the other. *)
Fixpoint concat (parts : list string) : string :=
  match parts with
  | [] => EmptyString
  | p :: ps => p +:+ concat ps
  end.

End PyStr.

(** ** Exceptions *)

Inductive exn : Type :=
| InvalidRegexPattern (pattern : string)   (* ValueError, from __init__ *)
| UnknownMatchType (match_type : string)   (* ValueError, from matches *)
| NoCompiledRegex.                         (* AttributeError on None.search *)

Inductive result (A : Type) : Type :=
| Ok (a : A)
| Raise (e : exn).
Arguments Ok {A} a.
Arguments Raise {A} e.

#[global] Instance result_ret : MRet result := fun A a => Ok a.
#[global] Instance result_bind : MBind result := fun A B k m =>
  match m with
  | Ok a => k a
  | Raise e => Raise e
  end.

(** ** FilterRule *)

(** [re.compile(pattern, flags)]: [None] stands for [re.error]; a compiled
    pattern is known by its [search] method, as a predicate on the text.
    The flag is [true] for [re.IGNORECASE]. *)
Definition re_engine : Type := string -> bool -> option (string -> bool).

Record FilterRule : Type := mkFilterRule {
  pattern : string;
  match_type : string;
  case_sensitive : bool;
  compiled_regex : option (string -> bool)
}.

Section Rule.
Variable re_compile : re_engine.

(** [FilterRule.__init__] *)
Definition FilterRule_init (pat mt : string) (cs : bool) : result FilterRule :=
  let mt := PyStr.lower mt in
  if String.eqb mt "regex" then
    let ignorecase := negb cs in
    match re_compile pat ignorecase with
    | Some rx => Ok (mkFilterRule pat mt cs (Some rx))
    | None => Raise (InvalidRegexPattern pat)
    end
  else Ok (mkFilterRule pat mt cs None).
End Rule.

(** [FilterRule.matches] *)
Definition matches (self : FilterRule) (command : string) : result bool :=
  let text := if case_sensitive self then command else PyStr.lower command in
  let pat := if case_sensitive self then pattern self
             else PyStr.lower (pattern self) in
  if String.eqb (match_type self) "exact" then Ok (String.eqb text pat)
  else if String.eqb (match_type self) "contains" then Ok (PyStr.contains pat text)
  else if String.eqb (match_type self) "starts_with" then Ok (PyStr.startswith pat text)
  else if String.eqb (match_type self) "ends_with" then Ok (PyStr.endswith pat text)
  else if String.eqb (match_type self) "regex" then
    match compiled_regex self with
    | Some rx => Ok (rx command)
    | None => Raise NoCompiledRegex
    end
  else Raise (UnknownMatchType (match_type self)).

(** The match types that [matches] knows. *)
Definition known_match_type (mt : string) : bool :=
  String.eqb mt "exact" || String.eqb mt "contains"
  || String.eqb mt "starts_with" || String.eqb mt "ends_with"
  || String.eqb mt "regex".

(** The rule lists are built by [load_config] from the configuration's
    dictionaries (pattern, match type, case sensitivity): a rule whose
    construction raises is logged and skipped, every other rule is
    appended. *)
Fixpoint load_rules (re_compile : re_engine)
    (dicts : list (string * string * bool)) : list FilterRule :=
  match dicts with
  | [] => []
  | (pat, mt, cs) :: rest =>
      match FilterRule_init re_compile pat mt cs with
      | Ok rule => rule :: load_rules re_compile rest
      | Raise _ => load_rules re_compile rest
      end
  end.

(** ** The regular expressions fixed in the source *)

Module Regex.
Import PyStr.

(** The first [n] characters of [s] exist and satisfy [p]. *)
Fixpoint run_at (p : ascii -> bool) (n : nat) (s : string) : bool :=
  match n with
  | O => true
  | S n' =>
      match s with
      | EmptyString => false
      | String c s' => p c && run_at p n' s'
      end
  end.

(** [re.search] for a character class repeated [{n,}]. *)
Fixpoint search_run (p : ascii -> bool) (n : nat) (s : string) : bool :=
  run_at p n s ||
  match s with
  | EmptyString => false
  | String _ s' => search_run p n s'
  end.

(** [.*lit] anchored at the start of [s]. *)
Fixpoint dot_star_then (lit s : string) : bool :=
  startswith lit s ||
  match s with
  | EmptyString => false
  | String c s' => isdot c && dot_star_then lit s'
  end.

(** [re.search] of the third pattern: an opening bracket, any characters
    of the same line, and a closing bracket repeated [{3,}]. *)
Fixpoint search_brackets (s : string) : bool :=
  match s with
  | EmptyString => false
  | String c s' =>
      Ascii.eqb c "["%char && dot_star_then "]]]" s' || search_brackets s'
  end.

(** [re.search] of the fifth pattern: a character matched by the dot,
    then the back-reference to it repeated [{15,}]. *)
Fixpoint search_repeated (s : string) : bool :=
  match s with
  | EmptyString => false
  | String c s' =>
      isdot c && run_at (Ascii.eqb c) 15 s' || search_repeated s'
  end.

(** The list [repetitive_patterns], searched in order. *)
Definition repetitive_patterns : list (string -> bool) :=
  [ search_run (Ascii.eqb "-"%char) 20;
    search_run (Ascii.eqb "="%char) 20;
    search_brackets;
    search_run isspace 10;
    search_repeated ].

(** [re.sub] of every run of white space by one space; [inside] tells
    that the previous character belonged to the run being replaced. *)
Fixpoint sub_spaces_from (inside : bool) (s : string) : string :=
  match s with
  | EmptyString => EmptyString
  | String c s' =>
      if isspace c then
        if inside then sub_spaces_from true s'
        else String space (sub_spaces_from true s')
      else String c (sub_spaces_from false s')
  end.
Definition sub_spaces (s : string) : string := sub_spaces_from false s.

(** [re.sub] of the continuation pattern by one space: a backslash,
    white space, a line feed, white space. The match is the backslash and
    the whole run of white space after it, when that run holds a line
    feed; [skip] counts the characters of the current match still to be
    dropped. *)
Fixpoint sub_continuations_from (skip : nat) (s : string) : string :=
  match s with
  | EmptyString => EmptyString
  | String c s' =>
      match skip with
      | S k => sub_continuations_from k s'
      | O =>
          let w := fst (span isspace s') in
          if Ascii.eqb c backslash && negb (all isdot w)
          then String space (sub_continuations_from (String.length w) s')
          else String c (sub_continuations_from O s')
      end
  end.
Definition sub_continuations (s : string) : string :=
  sub_continuations_from O s.

(** [re.sub] of the trailing pattern by nothing: the match is the first
    backslash that only white space follows, with that white space. *)
Fixpoint sub_trailing_backslash (s : string) : string :=
  match s with
  | EmptyString => EmptyString
  | String c s' =>
      if Ascii.eqb c backslash && all isspace s' then EmptyString
      else String c (sub_trailing_backslash s')
  end.

(** [re.match] of the entry pattern, giving groups 1 and 2: a colon, a
    space, digits, a colon, digits (group 1), a semicolon, then the
    characters up to the first line feed (group 2), which the end anchor
    must follow: the end of the text, or one last line feed. *)
Definition match_entry (line : string) : option (string * string) :=
  match line with
  | String c0 (String c1 r0) =>
      if Ascii.eqb c0 ":"%char && Ascii.eqb c1 space then
        let '(d1, r1) := span isdigit r0 in
        match r1 with
        | String c2 r2 =>
            let '(d2, r3) := span isdigit r2 in
            match r3 with
            | String c3 r4 =>
                let '(cmd, r5) := span isdot r4 in
                if negb (is_empty d1) && Ascii.eqb c2 ":"%char
                   && negb (is_empty d2) && Ascii.eqb c3 ";"%char
                   && (is_empty r5 || String.eqb r5 newline)
                then Some (d1 +:+ ":" +:+ d2, cmd)
                else None
            | EmptyString => None
            end
        | EmptyString => None
        end
      else None
  | _ => None
  end.

End Regex.

(** ** ZshHistoryCleaner *)

Record CleaningStats : Type := mkStats {
  total_lines : Z;
  valid_entries : Z;
  duplicates_removed : Z;
  too_long_removed : Z;
  malformed_removed : Z;
  ignored_kept : Z;
  allowed_removed : Z;
  pattern_removed : Z;
  final_entries : Z
}.

(** The fields of the object that the filtering engine reads or writes. *)
Record ZshHistoryCleaner : Type := mkCleaner {
  max_command_length : Z;
  ignore_rules : list FilterRule;
  allow_rules : list FilterRule;
  seen_commands : gset string;
  cleaned_entries : list string;
  stats : CleaningStats
}.

Definition zero_stats : CleaningStats := mkStats 0 0 0 0 0 0 0 0 0.

(** The object as [__init__] leaves it, the rules being loaded. *)
Definition new_cleaner (max_len : Z) (ignore allow : list FilterRule)
    : ZshHistoryCleaner :=
  mkCleaner max_len ignore allow ∅ [] zero_stats.

Definition set_stats (f : CleaningStats -> CleaningStats)
    (self : ZshHistoryCleaner) : ZshHistoryCleaner :=
  mkCleaner (max_command_length self) (ignore_rules self) (allow_rules self)
            (seen_commands self) (cleaned_entries self) (f (stats self)).

Definition set_total_lines (n : Z) (s : CleaningStats) : CleaningStats :=
  mkStats n (valid_entries s) (duplicates_removed s) (too_long_removed s)
          (malformed_removed s) (ignored_kept s) (allowed_removed s)
          (pattern_removed s) (final_entries s).
Definition incr_valid_entries (s : CleaningStats) : CleaningStats :=
  mkStats (total_lines s) (valid_entries s + 1) (duplicates_removed s)
          (too_long_removed s) (malformed_removed s) (ignored_kept s)
          (allowed_removed s) (pattern_removed s) (final_entries s).
Definition incr_duplicates_removed (s : CleaningStats) : CleaningStats :=
  mkStats (total_lines s) (valid_entries s) (duplicates_removed s + 1)
          (too_long_removed s) (malformed_removed s) (ignored_kept s)
          (allowed_removed s) (pattern_removed s) (final_entries s).
Definition incr_too_long_removed (s : CleaningStats) : CleaningStats :=
  mkStats (total_lines s) (valid_entries s) (duplicates_removed s)
          (too_long_removed s + 1) (malformed_removed s) (ignored_kept s)
          (allowed_removed s) (pattern_removed s) (final_entries s).
Definition incr_malformed_removed (s : CleaningStats) : CleaningStats :=
  mkStats (total_lines s) (valid_entries s) (duplicates_removed s)
          (too_long_removed s) (malformed_removed s + 1) (ignored_kept s)
          (allowed_removed s) (pattern_removed s) (final_entries s).
Definition incr_ignored_kept (s : CleaningStats) : CleaningStats :=
  mkStats (total_lines s) (valid_entries s) (duplicates_removed s)
          (too_long_removed s) (malformed_removed s) (ignored_kept s + 1)
          (allowed_removed s) (pattern_removed s) (final_entries s).
Definition incr_allowed_removed (s : CleaningStats) : CleaningStats :=
  mkStats (total_lines s) (valid_entries s) (duplicates_removed s)
          (too_long_removed s) (malformed_removed s) (ignored_kept s)
          (allowed_removed s + 1) (pattern_removed s) (final_entries s).
Definition incr_pattern_removed (s : CleaningStats) : CleaningStats :=
  mkStats (total_lines s) (valid_entries s) (duplicates_removed s)
          (too_long_removed s) (malformed_removed s) (ignored_kept s)
          (allowed_removed s) (pattern_removed s + 1) (final_entries s).
Definition set_final_entries (n : Z) (s : CleaningStats) : CleaningStats :=
  mkStats (total_lines s) (valid_entries s) (duplicates_removed s)
          (too_long_removed s) (malformed_removed s) (ignored_kept s)
          (allowed_removed s) (pattern_removed s) n.

(** [self.seen_commands.add(normalized)] followed by
    [self.cleaned_entries.append(entry)]. *)
Definition keep_entry (normalized entry : string)
    (self : ZshHistoryCleaner) : ZshHistoryCleaner :=
  mkCleaner (max_command_length self) (ignore_rules self) (allow_rules self)
            ({[ normalized ]} ∪ seen_commands self)
            (cleaned_entries self ++ [entry]) (stats self).

(** The loop shared by [check_ignore_rules] and [check_allow_rules]. *)
Fixpoint check_rules (rules : list FilterRule) (command : string)
    : result bool :=
  match rules with
  | [] => Ok false
  | rule :: rest =>
      b ← matches rule command;
      if b : bool then Ok true else check_rules rest command
  end.

Definition check_ignore_rules (self : ZshHistoryCleaner) (command : string)
    : result bool :=
  check_rules (ignore_rules self) command.

Definition check_allow_rules (self : ZshHistoryCleaner) (command : string)
    : result bool :=
  check_rules (allow_rules self) command.

Definition parse_history_entry (line : string) : option (string * string) :=
  Regex.match_entry line.

(** The line written for a kept entry, without its line feed. *)
Definition format_entry (timestamp_part command : string) : string :=
  ": " +:+ timestamp_part +:+ ";" +:+ command.

Definition is_command_worth_keeping (self : ZshHistoryCleaner)
    (command : string) : result (bool * string) :=
  let command := PyStr.strip command in
  if PyStr.is_empty command then Ok (false, "empty"%string)
  else
    allowed ← check_allow_rules self command;
    if allowed : bool then Ok (false, "allow_rule_match"%string)
    else
      ignored ← check_ignore_rules self command;
      if ignored : bool then Ok (true, "ignore_rule_match"%string)
      else if PyStr.len command >? max_command_length self
      then Ok (false, "too_long"%string)
      else if existsb (fun search => search command) Regex.repetitive_patterns
      then Ok (false, "repetitive_pattern"%string)
      else Ok (true, EmptyString).

Definition normalize_command (command : string) : string :=
  let normalized := Regex.sub_spaces (PyStr.strip command) in
  let normalized := Regex.sub_continuations normalized in
  Regex.sub_trailing_backslash normalized.

Definition _process_entry (self : ZshHistoryCleaner) (entry : string)
    : result ZshHistoryCleaner :=
  match parse_history_entry entry with
  | None => Ok (set_stats incr_malformed_removed self)
  | Some (timestamp_part, command) =>
      let self := set_stats incr_valid_entries self in
      allowed ← check_allow_rules self command;
      if allowed : bool then Ok (set_stats incr_allowed_removed self)
      else
        ignored ← check_ignore_rules self command;
        if ignored : bool then
          let self := set_stats incr_ignored_kept self in
          let normalized := normalize_command command in
          Ok (keep_entry normalized (format_entry timestamp_part command) self)
        else
          '(keep, reason) ← is_command_worth_keeping self command;
          if negb keep then
            if String.eqb reason "too_long"
            then Ok (set_stats incr_too_long_removed self)
            else Ok (set_stats incr_pattern_removed self)
          else
            let normalized := normalize_command command in
            if bool_decide (normalized ∈ seen_commands self)
            then Ok (set_stats incr_duplicates_removed self)
            else
              Ok (keep_entry normalized
                    (format_entry timestamp_part command) self)
  end.

(** One turn of the loop of [process_history]; the second component is
    [current_entry]. *)
Definition history_step (acc : ZshHistoryCleaner * string) (line : string)
    : result (ZshHistoryCleaner * string) :=
  let '(self, current_entry) := acc in
  let line := PyStr.rstrip_newlines line in
  if PyStr.startswith ": " line && PyStr.contains ":" line
     && PyStr.contains ";" line
  then
    self ← (if negb (PyStr.is_empty current_entry)
            then _process_entry self current_entry else Ok self);
    Ok (self, line)
  else if negb (PyStr.is_empty current_entry)
  then Ok (self, current_entry +:+ PyStr.newline +:+ line)
  else Ok (set_stats incr_malformed_removed self, current_entry).

Fixpoint history_loop (lines : list string)
    (acc : ZshHistoryCleaner * string)
    : result (ZshHistoryCleaner * string) :=
  match lines with
  | [] => Ok acc
  | line :: rest => acc' ← history_step acc line; history_loop rest acc'
  end.

(** [process_history] from the point where [lines] has been read. The
    method returns [True] where the model gives [Ok], with the object in
    the state given; it returns [False] where the model gives [Raise]: the
    exception is caught and printed by the method's handler. *)
Definition process_history (self : ZshHistoryCleaner) (lines : list string)
    : result ZshHistoryCleaner :=
  let self := set_stats (set_total_lines (Z.of_nat (length lines))) self in
  '(self, current_entry) ← history_loop lines (self, EmptyString);
  self ← (if negb (PyStr.is_empty current_entry)
          then _process_entry self current_entry else Ok self);
  Ok (set_stats
        (set_final_entries (Z.of_nat (length (cleaned_entries self)))) self).

(** ** Reading and writing the history file *)

(** Python's universal-newlines translation of a text read in mode [r]. *)
Fixpoint universal_newlines (s : string) : string :=
  match s with
  | EmptyString => EmptyString
  | String c s' =>
      if Ascii.eqb c PyStr.CR then
        String PyStr.LF
          match s' with
          | String d s'' =>
              if Ascii.eqb d PyStr.LF then universal_newlines s''
              else universal_newlines s'
          | EmptyString => EmptyString
          end
      else String c (universal_newlines s')
  end.

(** The lines of a text, each with its line feed. *)
Fixpoint split_lines (s : string) : list string :=
  match s with
  | EmptyString => []
  | String c s' =>
      if Ascii.eqb c PyStr.LF then PyStr.newline :: split_lines s'
      else
        match split_lines s' with
        | [] => [String c EmptyString]
        | l :: ls => String c l :: ls
        end
  end.

(** [f.readlines()] on a file whose decoded content is [content]. *)
Definition readlines (content : string) : list string :=
  split_lines (universal_newlines content).

(** The content of the file after [write_cleaned_history]. *)
Definition write_cleaned_history (self : ZshHistoryCleaner) : string :=
  PyStr.concat (map (fun entry => entry +:+ PyStr.newline)
                    (cleaned_entries self)).

(** ** Auxiliary definitions for the statements *)

Definition one_char (c : ascii) : string := String c EmptyString.

(** A rule on which [matches] cannot raise. *)
Definition well_formed_rule (rule : FilterRule) : bool :=
  known_match_type (match_type rule)
  && (negb (String.eqb (match_type rule) "regex")
      || bool_decide (is_Some (compiled_regex rule))).

(** An engine for examples that hold no rule of type regex; it is never
    consulted there. *)
Definition no_regex : re_engine := fun _ _ => None.

(** Rules of the default configuration of [load_config], as the
    constructor builds them. The pattern of the second one is a regular
    expression fixed in the source (start of text, white space, end of
    text); its compiled form is translated by hand: it is found in a text
    exactly when the text is white space only. *)
Definition keep_git_commits : FilterRule :=
  mkFilterRule "git commit" "starts_with" false None.

Definition remove_empty_commands : FilterRule :=
  mkFilterRule "^\s*$" "regex" false (Some (PyStr.all PyStr.isspace)).

(** The line [: 5:0;echo] followed by a backslash, as zsh writes the first
    line of a command that continues on the next line. *)
Definition echo_continued : string :=
  ": 5:0;echo " +:+ one_char PyStr.backslash.

(** The shape of the two groups of the entry pattern: digits, a colon and
    digits; and a command without line feed. *)
Definition entry_shape (timestamp_part command : string) : Prop :=
  exists d1 d2,
    timestamp_part = d1 +:+ ":" +:+ d2
    /\ PyStr.all PyStr.isdigit d1 = true /\ d1 <> EmptyString
    /\ PyStr.all PyStr.isdigit d2 = true /\ d2 <> EmptyString
    /\ PyStr.all PyStr.isdot command = true.

(** The object once [_process_entry] has counted a valid entry. *)
Definition counted (self : ZshHistoryCleaner) : ZshHistoryCleaner :=
  set_stats incr_valid_entries self.

(** The six ways in which [_process_entry] leaves a parsed entry, in the
    order of the method's branches. *)
Inductive entry_outcome (self : ZshHistoryCleaner)
    (timestamp_part command : string) : ZshHistoryCleaner -> Prop :=
| outcome_allowed :
    check_allow_rules self command = Ok true ->
    entry_outcome self timestamp_part command
      (set_stats incr_allowed_removed (counted self))
| outcome_ignored :
    check_allow_rules self command = Ok false ->
    check_ignore_rules self command = Ok true ->
    entry_outcome self timestamp_part command
      (keep_entry (normalize_command command)
         (format_entry timestamp_part command)
         (set_stats incr_ignored_kept (counted self)))
| outcome_too_long :
    check_allow_rules self command = Ok false ->
    check_ignore_rules self command = Ok false ->
    is_command_worth_keeping self command = Ok (false, "too_long"%string) ->
    entry_outcome self timestamp_part command
      (set_stats incr_too_long_removed (counted self))
| outcome_pattern reason :
    check_allow_rules self command = Ok false ->
    check_ignore_rules self command = Ok false ->
    is_command_worth_keeping self command = Ok (false, reason) ->
    reason <> "too_long"%string ->
    entry_outcome self timestamp_part command
      (set_stats incr_pattern_removed (counted self))
| outcome_duplicate reason :
    check_allow_rules self command = Ok false ->
    check_ignore_rules self command = Ok false ->
    is_command_worth_keeping self command = Ok (true, reason) ->
    normalize_command command ∈ seen_commands self ->
    entry_outcome self timestamp_part command
      (set_stats incr_duplicates_removed (counted self))
| outcome_kept reason :
    check_allow_rules self command = Ok false ->
    check_ignore_rules self command = Ok false ->
    is_command_worth_keeping self command = Ok (true, reason) ->
    normalize_command command ∉ seen_commands self ->
    entry_outcome self timestamp_part command
      (keep_entry (normalize_command command)
         (format_entry timestamp_part command) (counted self)).

(** What one turn of the loop of [process_history] can do to the object:
    process an entry, or count an orphaned line. *)
Inductive run_step : ZshHistoryCleaner -> ZshHistoryCleaner -> Prop :=
| step_entry self entry self' :
    _process_entry self entry = Ok self' -> run_step self self'
| step_orphan self :
    run_step self (set_stats incr_malformed_removed self).

(** [_process_entry] on each entry of a list, in order. *)
Fixpoint process_entries (self : ZshHistoryCleaner) (entries : list string)
    : result ZshHistoryCleaner :=
  match entries with
  | [] => Ok self
  | entry :: rest =>
      self' ← _process_entry self entry; process_entries self' rest
  end.

(** Every valid entry is counted by one removal counter or is in the
    output. *)
Definition accounted (self : ZshHistoryCleaner) : Prop :=
  valid_entries (stats self)
  = allowed_removed (stats self) + too_long_removed (stats self)
    + pattern_removed (stats self) + duplicates_removed (stats self)
    + Z.of_nat (length (cleaned_entries self)).

(** Two objects with the same configuration. *)
Definition same_config (a b : ZshHistoryCleaner) : Prop :=
  max_command_length a = max_command_length b
  /\ ignore_rules a = ignore_rules b
  /\ allow_rules a = allow_rules b.

(** Texts without carriage return, and without carriage return or line
    feed. *)
Definition no_cr (s : string) : bool :=
  PyStr.all (fun c => negb (Ascii.eqb c PyStr.CR)) s.

Definition no_crlf (s : string) : bool :=
  PyStr.all (fun c => negb (PyStr.is_crlf c)) s.

(** The test of [process_history] for the first line of an entry. *)
Definition is_entry_start (line : string) : bool :=
  PyStr.startswith ": " line && PyStr.contains ":" line
  && PyStr.contains ";" line.

(** The end of [process_history] after its loop: the last entry is
    processed, if there is one. *)
Definition flush_entry (acc : ZshHistoryCleaner * string)
    : result ZshHistoryCleaner :=
  if negb (PyStr.is_empty (snd acc)) then _process_entry (fst acc) (snd acc)
  else Ok (fst acc).

(** The kept entries of a run, as pairs of a time stamp and a command:
    their output lines and their normalised commands. *)
Definition lines_of (kept : list (string * string)) : list string :=
  map (fun e => format_entry (fst e) (snd e)) kept.

Definition normalized_of (kept : list (string * string)) : list string :=
  map (fun e => normalize_command (snd e)) kept.

(** The reasons for which a run under the configuration [cfg] has kept
    its entries, one after the other. *)
Inductive kept_ok (cfg : ZshHistoryCleaner)
    : list (string * string) -> Prop :=
| kept_ok_nil : kept_ok cfg []
| kept_ok_snoc kept timestamp_part command :
    kept_ok cfg kept ->
    entry_shape timestamp_part command ->
    no_cr command = true ->
    check_allow_rules cfg command = Ok false ->
    (check_ignore_rules cfg command = Ok true
     \/ (check_ignore_rules cfg command = Ok false
         /\ (exists reason,
               is_command_worth_keeping cfg command = Ok (true, reason))
         /\ normalize_command command ∉ normalized_of kept)) ->
    kept_ok cfg (kept ++ [(timestamp_part, command)]).

(** The object holds exactly the entries [kept]. *)
Definition kept_state (cfg : ZshHistoryCleaner)
    (kept : list (string * string)) (self : ZshHistoryCleaner) : Prop :=
  same_config cfg self
  /\ cleaned_entries self = lines_of kept
  /\ forall x, x ∈ seen_commands self <-> x ∈ normalized_of kept.


(** [c * n] *)
Fixpoint repeat_char (c : ascii) (n : nat) : string :=
  match n with
  | O => EmptyString
  | S n' => String c (repeat_char c n')
  end.

(** ** Definitions for the further properties *)

(** The rule that the constructor builds for a match type other than
    regex, given in lower case. *)
Definition plain_rule (pat mt : string) (cs : bool) : FilterRule :=
  mkFilterRule pat mt cs None.




(** The text that [matches] compares: as it is for a case-sensitive rule,
    in lower case otherwise. *)
Definition cased (cs : bool) (s : string) : string :=
  if cs then s else PyStr.lower s.

(** The only white space of the text is the plain space. *)
Definition plain_spaces (s : string) : bool :=
  PyStr.all (fun c => negb (PyStr.isspace c) || Ascii.eqb c PyStr.space) s.

(** The white space of the text is single plain spaces; [after_space]
    tells that a space would follow a space (or stand first). *)
Fixpoint spaced_from (after_space : bool) (s : string) : bool :=
  match s with
  | EmptyString => true
  | String c s' =>
      if PyStr.isspace c
      then Ascii.eqb c PyStr.space && negb after_space && spaced_from true s'
      else spaced_from false s'
  end.

Definition single_spaced (s : string) : bool := spaced_from true s.

(** Whether the text read so far ends in white space, [inside] being the
    answer before the text. *)
Fixpoint ends_in_space (inside : bool) (s : string) : bool :=
  match s with
  | EmptyString => inside
  | String c s' => ends_in_space (PyStr.isspace c) s'
  end.

(** The command of an output line. *)
Definition command_of (line : string) : string :=
  match parse_history_entry line with
  | Some (_, command) => command
  | None => EmptyString
  end.

(** The duplicate keys of the output lines. *)
Definition keys_of (entries : list string) : list string :=
  map (fun line => normalize_command (command_of line)) entries.

(** [1] when an entry is being assembled, [0] otherwise. *)
Definition pending (current_entry : string) : Z :=
  if PyStr.is_empty current_entry then 0 else 1.

(** The entry under construction began with the stripped line [first]. *)
Definition begins_with_line (first current_entry : string) : Prop :=
  PyStr.rstrip_newlines first = first
  /\ (current_entry = first
      \/ exists more, current_entry = first +:+ String PyStr.LF more).

(** No counter is negative, and the entries kept by a force-keep rule are
    in the output. *)
Definition sane_counters (self : ZshHistoryCleaner) : Prop :=
  0 <= valid_entries (stats self)
  /\ 0 <= duplicates_removed (stats self)
  /\ 0 <= too_long_removed (stats self)
  /\ 0 <= malformed_removed (stats self)
  /\ 0 <= allowed_removed (stats self)
  /\ 0 <= pattern_removed (stats self)
  /\ 0 <= ignored_kept (stats self)
     <= Z.of_nat (length (cleaned_entries self)).

(** What the loop of [process_history] has put out after the lines
    [done]: the output, followed by the first line of the entry under
    construction if there is one, is made of stripped lines of [done], in
    their order. *)
Definition output_so_far (done : list string) (self : ZshHistoryCleaner)
    (current_entry : string) : Prop :=
  (current_entry = EmptyString
   /\ cleaned_entries self `sublist_of` map PyStr.rstrip_newlines done)
  \/ exists first,
       current_entry <> EmptyString
       /\ begins_with_line first current_entry
       /\ cleaned_entries self ++ [first]
          `sublist_of` map PyStr.rstrip_newlines done.

(** The commands seen are those of the output. *)
Definition seen_is_output (self : ZshHistoryCleaner) : Prop :=
  forall x, x ∈ seen_commands self <-> x ∈ keys_of (cleaned_entries self).

(** An output entry outside the force-keep rules has a key that no
    earlier output entry has. *)
Definition first_of_its_key (self : ZshHistoryCleaner) : Prop :=
  forall before line after,
    cleaned_entries self = before ++ line :: after ->
    check_ignore_rules self (command_of line) = Ok false ->
    normalize_command (command_of line) ∉ keys_of before.

(* The methods are unfolded on demand only. *)
#[local] Arguments history_step : simpl never.
#[local] Arguments _process_entry : simpl never.
#[local] Arguments is_command_worth_keeping : simpl never.
#[local] Arguments parse_history_entry : simpl never.
#[local] Arguments normalize_command : simpl never.
#[local] Arguments format_entry : simpl never.

(** ** Strings *)

Module StrFacts.
Import PyStr.

Lemma app_nil_r (s : string) : s +:+ EmptyString = s.
Proof. induction s as [|c s IH]; simpl; [reflexivity|]. now rewrite IH. Qed.

Lemma app_assoc (a b c : string) : (a +:+ b) +:+ c = a +:+ b +:+ c.
Proof. induction a as [|x a IH]; simpl; [reflexivity|]. now rewrite IH. Qed.

Lemma is_empty_true (s : string) : is_empty s = true <-> s = EmptyString.
Proof. destruct s; simpl; split; congruence. Qed.

Lemma is_empty_false (s : string) : is_empty s = false <-> s <> EmptyString.
Proof. destruct s; simpl; split; congruence. Qed.

Lemma all_app p (a b : string) :
  all p (a +:+ b) = all p a && all p b.
Proof.
  induction a as [|x a IH]; simpl; [reflexivity|].
  rewrite IH. now rewrite andb_assoc.
Qed.

Lemma span_spec p (s a b : string) :
  span p s = (a, b) -> s = a +:+ b /\ all p a = true.
Proof.
  revert a b. induction s as [|c s IH]; simpl; intros a b.
  - intros [= <- <-]. auto.
  - destruct (p c) eqn:Hc.
    + destruct (span p s) as [a' b'] eqn:Hs. intros [= <- <-].
      destruct (IH a' b' eq_refl) as [-> Ha]. simpl. now rewrite Hc, Ha.
    + intros [= <- <-]. auto.
Qed.

Lemma span_stop p (a : string) c (b : string) :
  all p a = true -> p c = false ->
  span p (a +:+ String c b) = (a, String c b).
Proof.
  intros Ha Hc. induction a as [|x a IH]; simpl in *.
  - now rewrite Hc.
  - apply andb_true_iff in Ha as [Hx Ha]. now rewrite Hx, (IH Ha).
Qed.

Lemma span_all p (a : string) :
  all p a = true -> span p a = (a, EmptyString).
Proof.
  intros Ha. induction a as [|x a IH]; simpl in *; [reflexivity|].
  apply andb_true_iff in Ha as [Hx Ha]. now rewrite Hx, (IH Ha).
Qed.

End StrFacts.

(** ** The entry pattern *)

Lemma format_entry_unfold (d1 d2 command : string) :
  format_entry (d1 +:+ String ":" d2) command
  = String ":" (String PyStr.space
      (d1 +:+ String ":" (d2 +:+ String ";" command))).
Proof.
  unfold format_entry. simpl. do 2 f_equal.
  now rewrite StrFacts.app_assoc.
Qed.

(** What a successful parse tells about its argument and its result. *)
Lemma parse_history_entry_shape (line timestamp_part command : string) :
  parse_history_entry line = Some (timestamp_part, command) ->
  entry_shape timestamp_part command
  /\ (line = format_entry timestamp_part command
      \/ line = format_entry timestamp_part command +:+ PyStr.newline).
Proof.
  unfold parse_history_entry, Regex.match_entry.
  destruct line as [|c0 [|c1 r0]]; try discriminate.
  destruct (Ascii.eqb c0 ":" && Ascii.eqb c1 PyStr.space) eqn:H01;
    [|discriminate].
  apply andb_true_iff in H01 as [H0 H1].
  apply Ascii.eqb_eq in H0, H1. subst c0 c1.
  destruct (PyStr.span PyStr.isdigit r0) as [d1 r1] eqn:S1.
  destruct r1 as [|c2 r2]; [discriminate|].
  destruct (PyStr.span PyStr.isdigit r2) as [d2 r3] eqn:S2.
  destruct r3 as [|c3 r4]; [discriminate|].
  destruct (PyStr.span PyStr.isdot r4) as [cmd r5] eqn:S3.
  destruct (negb (PyStr.is_empty d1) && Ascii.eqb c2 ":"
            && negb (PyStr.is_empty d2) && Ascii.eqb c3 ";"
            && (PyStr.is_empty r5 || String.eqb r5 PyStr.newline)) eqn:Hc;
    [|discriminate].
  intros [= <- <-].
  apply andb_true_iff in Hc as [Hc Hend].
  apply andb_true_iff in Hc as [Hc Hc3].
  apply andb_true_iff in Hc as [Hc Hd2].
  apply andb_true_iff in Hc as [Hd1 Hc2].
  apply Ascii.eqb_eq in Hc2, Hc3. subst c2 c3.
  apply negb_true_iff, StrFacts.is_empty_false in Hd1, Hd2.
  apply StrFacts.span_spec in S1 as [-> A1].
  apply StrFacts.span_spec in S2 as [-> A2].
  apply StrFacts.span_spec in S3 as [-> A3].
  split.
  - exists d1, d2. auto 10.
  - rewrite format_entry_unfold.
    apply orb_true_iff in Hend as [E|E].
    + apply StrFacts.is_empty_true in E. subst r5.
      rewrite StrFacts.app_nil_r. now left.
    + apply String.eqb_eq in E. subst r5. right. simpl. do 2 f_equal.
      rewrite StrFacts.app_assoc. simpl. f_equal. f_equal.
      now rewrite StrFacts.app_assoc.
Qed.

Lemma isdigit_isdot (s : string) :
  PyStr.all PyStr.isdigit s = true -> PyStr.all PyStr.isdot s = true.
Proof.
  induction s as [|c s IH]; simpl; [reflexivity|].
  intros H. apply andb_true_iff in H as [Hc Hs]. rewrite (IH Hs), andb_true_r.
  unfold PyStr.isdot. destruct (Ascii.eqb c PyStr.LF) eqn:E; [|reflexivity].
  apply Ascii.eqb_eq in E. subst c. discriminate.
Qed.

Lemma entry_shape_parse (timestamp_part command : string) :
  entry_shape timestamp_part command ->
  parse_history_entry (format_entry timestamp_part command)
  = Some (timestamp_part, command)
  /\ parse_history_entry (format_entry timestamp_part command +:+ PyStr.newline)
     = Some (timestamp_part, command).
Proof.
  intros (d1 & d2 & -> & A1 & N1 & A2 & N2 & A3).
  change (":" +:+ d2) with (String ":" d2).
  assert (E : format_entry (d1 +:+ String ":" d2) command +:+ PyStr.newline
              = String ":" (String PyStr.space
                  (d1 +:+ String ":" (d2 +:+ String ";"
                     (command +:+ PyStr.newline))))).
  { rewrite format_entry_unfold. simpl. do 2 f_equal.
    rewrite StrFacts.app_assoc. simpl. f_equal. f_equal.
    now rewrite StrFacts.app_assoc. }
  rewrite E, format_entry_unfold. clear E.
  unfold parse_history_entry, Regex.match_entry.
  change (Ascii.eqb ":" ":" && Ascii.eqb PyStr.space PyStr.space) with true.
  cbv iota.
  rewrite !(StrFacts.span_stop _ d1 ":" _ A1 eq_refl).
  rewrite !(StrFacts.span_stop _ d2 ";" _ A2 eq_refl).
  apply StrFacts.is_empty_false in N1, N2. rewrite N1, N2.
  rewrite (StrFacts.span_all _ _ A3).
  unfold PyStr.newline.
  rewrite (StrFacts.span_stop _ command PyStr.LF _ A3 eq_refl).
  split; reflexivity.
Qed.

Lemma entry_shape_one_line (timestamp_part command : string) :
  entry_shape timestamp_part command ->
  PyStr.all PyStr.isdot (format_entry timestamp_part command) = true.
Proof.
  intros (d1 & d2 & -> & A1 & N1 & A2 & N2 & A3).
  change (":" +:+ d2) with (String ":" d2).
  rewrite format_entry_unfold. simpl.
  rewrite StrFacts.all_app. simpl. rewrite StrFacts.all_app. simpl.
  now rewrite (isdigit_isdot _ A1), (isdigit_isdot _ A2), A3.
Qed.

(** A text that continues after a line feed never matches the entry
    pattern: every entry with a continuation line is malformed. *)
Lemma parse_history_entry_multiline (first rest : string) :
  rest <> EmptyString ->
  parse_history_entry (first +:+ PyStr.newline +:+ rest) = None.
Proof.
  intros Hrest.
  destruct (parse_history_entry (first +:+ PyStr.newline +:+ rest))
    as [[ts cmd]|] eqn:Hp; [exfalso|reflexivity].
  apply parse_history_entry_shape in Hp as [Hs Hl].
  apply entry_shape_one_line in Hs.
  set (P := format_entry ts cmd) in *. clearbody P.
  destruct Hl as [Hl|Hl].
  - rewrite <- Hl, StrFacts.all_app in Hs. simpl in Hs.
    now rewrite andb_false_r in Hs.
  - revert first Hl. induction P as [|x P IH]; intros first Hl.
    + destruct first as [|y first]; simpl in Hl.
      * injection Hl as Hl. now apply Hrest.
      * injection Hl as _ Hl. destruct first; discriminate.
    + simpl in Hs. apply andb_true_iff in Hs as [Hx Hs].
      destruct first as [|y first]; simpl in Hl.
      * injection Hl as <- _. discriminate.
      * injection Hl as _ Hl. now apply (IH Hs first).
Qed.

(** ** Basic facts about rules and the rule loops *)

Lemma matches_well_formed rule command :
  well_formed_rule rule = true -> exists b, matches rule command = Ok b.
Proof.
  unfold well_formed_rule, known_match_type, matches.
  intros H.
  destruct (String.eqb (match_type rule) "exact"); [eauto|].
  destruct (String.eqb (match_type rule) "contains"); [eauto|].
  destruct (String.eqb (match_type rule) "starts_with"); [eauto|].
  destruct (String.eqb (match_type rule) "ends_with"); [eauto|].
  destruct (String.eqb (match_type rule) "regex"); [|discriminate].
  simpl in H. destruct (compiled_regex rule) as [rx|]; [eauto|].
  exfalso. apply bool_decide_eq_true in H. destruct H as [x Hx]. discriminate.
Qed.

(** Over well-formed rules the loop is total and returns [true] exactly
    when some rule of the list matches. *)
Lemma check_rules_well_formed rules command :
  forallb well_formed_rule rules = true ->
  exists b, check_rules rules command = Ok b
            /\ (b = true <-> exists rule, In rule rules
                                          /\ matches rule command = Ok true).
Proof.
  induction rules as [|rule rest IH]; simpl; intros Hwf.
  - exists false. split; [reflexivity|]. split; [discriminate|].
    intros (r & [] & _).
  - apply andb_true_iff in Hwf as [Hr Hrest].
    destruct (matches_well_formed rule command Hr) as [b Hb].
    rewrite Hb. simpl. destruct b.
    + exists true. split; [reflexivity|]. split; [|reflexivity].
      intros _. exists rule. auto.
    + destruct (IH Hrest) as (b & Hc & Hiff). exists b. split; [exact Hc|].
      rewrite Hiff. split.
      * intros (r & Hin & Hm). exists r. auto.
      * intros (r & [Heq|Hin] & Hm); [subst; congruence|]. exists r. auto.
Qed.


(** ** C5: unknown match types *)

(** C5, as the code has it. The constructor accepts a match type outside
    exact, contains, starts_with, ends_with and regex: it only lower-cases
    the type and compiles the pattern of a regex rule. The unknown type is
    found when [matches] is called, which raises the unknown-match-type
    error on every text. *)
Theorem unknown_match_type_raises_at_call
    (re_compile : re_engine) (pat mt : string) (cs : bool) :
  known_match_type (PyStr.lower mt) = false ->
  exists rule,
    FilterRule_init re_compile pat mt cs = Ok rule
    /\ match_type rule = PyStr.lower mt
    /\ forall command,
         matches rule command = Raise (UnknownMatchType (PyStr.lower mt)).
Proof.
  intros Hk. unfold known_match_type in Hk.
  repeat (apply orb_false_iff in Hk; destruct Hk as [Hk ?]).
  exists (mkFilterRule pat (PyStr.lower mt) cs None).
  unfold FilterRule_init, matches. simpl.
  repeat match goal with H : String.eqb _ _ = false |- _ =>
    rewrite H; clear H end.
  auto.
Qed.

Lemma unknown_match_type_raises_at_call_witness :
  known_match_type (PyStr.lower "Glob") = false
  /\ exists rule,
       FilterRule_init no_regex "rm " "Glob" false = Ok rule
       /\ match_type rule = PyStr.lower "Glob"
       /\ forall command,
            matches rule command
            = Raise (UnknownMatchType (PyStr.lower "Glob")).
Proof.
  split; [reflexivity|].
  apply (unknown_match_type_raises_at_call no_regex "rm " "Glob" false).
  reflexivity.
Defined.

(** C5, as the spec states it, fails: the rule of type glob is constructed
    and loaded, its call raises, and the exception ends the run at the
    first valid entry. *)
Lemma unknown_match_type_accepted_at_construction :
  let rule := mkFilterRule "rm " "glob" false None in
  FilterRule_init no_regex "rm " "glob" false = Ok rule
  /\ load_rules no_regex [("rm ", "glob", false)] = [rule]
  /\ matches rule "ls" = Raise (UnknownMatchType "glob")
  /\ process_history (new_cleaner 500 [] [rule])
       [": 5:0;ls" +:+ PyStr.newline]
     = Raise (UnknownMatchType "glob").
Proof. vm_compute. auto. Qed.

(** ** The decision made for one entry *)

(** C2. When the command of a parsed entry matches a force-remove (allow)
    rule and a force-keep (ignore) rule, the entry is dropped as an
    allow-rule match: [allowed_removed] is incremented, nothing is appended
    to the output, and the entry is not counted as kept by an ignore rule. *)
Theorem allow_rule_wins_over_ignore_rule
    (self : ZshHistoryCleaner) (entry timestamp_part command : string) :
  parse_history_entry entry = Some (timestamp_part, command) ->
  check_allow_rules self command = Ok true ->
  check_ignore_rules self command = Ok true ->
  exists self',
    _process_entry self entry = Ok self'
    /\ allowed_removed (stats self') = allowed_removed (stats self) + 1
    /\ ignored_kept (stats self') = ignored_kept (stats self)
    /\ cleaned_entries self' = cleaned_entries self
    /\ seen_commands self' = seen_commands self.
Proof.
  intros Hparse Hallow _. unfold _process_entry. rewrite Hparse.
  change (check_allow_rules (set_stats incr_valid_entries self) command)
    with (check_allow_rules self command).
  rewrite Hallow. simpl. eexists. split; [reflexivity|]. simpl. auto.
Qed.

Lemma allow_rule_wins_over_ignore_rule_witness :
  let self :=
    new_cleaner 500 [keep_git_commits]
      [mkFilterRule "commit" "contains" false None] in
  exists self',
    _process_entry self ": 5:0;git commit -m x" = Ok self'
    /\ allowed_removed (stats self') = allowed_removed (stats self) + 1
    /\ ignored_kept (stats self') = ignored_kept (stats self)
    /\ cleaned_entries self' = cleaned_entries self
    /\ seen_commands self' = seen_commands self.
Proof.
  intros self.
  apply (allow_rule_wins_over_ignore_rule self ": 5:0;git commit -m x"
           "5:0" "git commit -m x"); reflexivity.
Defined.

(** C3, as the code has it. The rules are evaluated first, on the command
    as parsed; when the command of a parsed entry is empty after trimming
    and matches no force-remove and no force-keep rule, the standard
    filters give the reason empty and the entry is dropped, counted by
    [pattern_removed]. *)
Theorem empty_command_dropped_after_rules
    (self : ZshHistoryCleaner) (entry timestamp_part command : string) :
  parse_history_entry entry = Some (timestamp_part, command) ->
  PyStr.strip command = EmptyString ->
  check_allow_rules self command = Ok false ->
  check_ignore_rules self command = Ok false ->
  is_command_worth_keeping self command = Ok (false, "empty"%string)
  /\ exists self',
       _process_entry self entry = Ok self'
       /\ pattern_removed (stats self') = pattern_removed (stats self) + 1
       /\ allowed_removed (stats self') = allowed_removed (stats self)
       /\ ignored_kept (stats self') = ignored_kept (stats self)
       /\ cleaned_entries self' = cleaned_entries self
       /\ seen_commands self' = seen_commands self.
Proof.
  intros Hparse Hempty Hallow Hignore.
  assert (Hw : forall s, is_command_worth_keeping s command
                         = Ok (false, "empty"%string)).
  { intros s. unfold is_command_worth_keeping. rewrite Hempty. reflexivity. }
  split; [apply Hw|].
  unfold _process_entry. rewrite Hparse.
  change (check_allow_rules (set_stats incr_valid_entries self) command)
    with (check_allow_rules self command).
  rewrite Hallow. simpl.
  change (check_ignore_rules (set_stats incr_valid_entries self) command)
    with (check_ignore_rules self command).
  rewrite Hignore. simpl. rewrite Hw. simpl.
  eexists. split; [reflexivity|]. simpl. auto.
Qed.

Lemma empty_command_dropped_after_rules_witness :
  let self := new_cleaner 500 [keep_git_commits] [] in
  is_command_worth_keeping self "   " = Ok (false, "empty"%string)
  /\ exists self',
       _process_entry self ": 5:0;   " = Ok self'
       /\ pattern_removed (stats self') = pattern_removed (stats self) + 1
       /\ allowed_removed (stats self') = allowed_removed (stats self)
       /\ ignored_kept (stats self') = ignored_kept (stats self)
       /\ cleaned_entries self' = cleaned_entries self
       /\ seen_commands self' = seen_commands self.
Proof.
  intros self.
  apply (empty_command_dropped_after_rules self ": 5:0;   " "5:0" "   ");
    reflexivity.
Defined.

(** C3, as the spec states it, fails. With the default force-remove rule
    that removes empty commands, the empty command is dropped as an
    allow-rule match, not with the reason empty; with a force-keep rule
    that matches it, it is kept. *)
Lemma empty_command_meets_rules_first :
  let removing := new_cleaner 500 [] [remove_empty_commands] in
  let keeping := new_cleaner 500 [mkFilterRule "" "exact" false None] [] in
  parse_history_entry ": 5:0;" = Some ("5:0"%string, EmptyString)
  /\ PyStr.strip EmptyString = EmptyString
  /\ _process_entry removing ": 5:0;"
     = Ok (set_stats incr_allowed_removed
             (set_stats incr_valid_entries removing))
  /\ _process_entry keeping ": 5:0;"
     = Ok (keep_entry EmptyString ": 5:0;"
             (set_stats incr_ignored_kept
                (set_stats incr_valid_entries keeping))).
Proof. vm_compute. auto. Qed.

(** C6. When the command of a parsed entry matches a force-keep rule and
    no force-remove rule, the entry is kept as an ignore-rule match,
    whatever the maximal length, the noise patterns and the commands seen
    so far: its line is appended to the output, [ignored_kept] is
    incremented and no removal counter moves. *)
Theorem ignore_rule_bypasses_filters
    (self : ZshHistoryCleaner) (entry timestamp_part command : string) :
  parse_history_entry entry = Some (timestamp_part, command) ->
  check_allow_rules self command = Ok false ->
  check_ignore_rules self command = Ok true ->
  exists self',
    _process_entry self entry = Ok self'
    /\ cleaned_entries self'
       = cleaned_entries self ++ [format_entry timestamp_part command]
    /\ ignored_kept (stats self') = ignored_kept (stats self) + 1
    /\ too_long_removed (stats self') = too_long_removed (stats self)
    /\ pattern_removed (stats self') = pattern_removed (stats self)
    /\ duplicates_removed (stats self') = duplicates_removed (stats self)
    /\ allowed_removed (stats self') = allowed_removed (stats self)
    /\ seen_commands self'
       = {[ normalize_command command ]} ∪ seen_commands self.
Proof.
  intros Hparse Hallow Hignore. unfold _process_entry. rewrite Hparse.
  change (check_allow_rules (set_stats incr_valid_entries self) command)
    with (check_allow_rules self command).
  rewrite Hallow. simpl.
  change (check_ignore_rules (set_stats incr_valid_entries self) command)
    with (check_ignore_rules self command).
  rewrite Hignore. simpl.
  eexists. split; [reflexivity|]. simpl. repeat split; reflexivity.
Qed.

(** The example of the spec: maximal length 1, and the command already
    seen. *)
Lemma ignore_rule_bypasses_filters_witness :
  let self :=
    keep_entry "git commit -m x" ": 4:0;git commit -m x"
      (new_cleaner 1 [keep_git_commits] []) in
  exists self',
    _process_entry self ": 5:0;git commit -m x" = Ok self'
    /\ cleaned_entries self'
       = cleaned_entries self ++ [format_entry "5:0" "git commit -m x"]
    /\ ignored_kept (stats self') = ignored_kept (stats self) + 1
    /\ too_long_removed (stats self') = too_long_removed (stats self)
    /\ pattern_removed (stats self') = pattern_removed (stats self)
    /\ duplicates_removed (stats self') = duplicates_removed (stats self)
    /\ allowed_removed (stats self') = allowed_removed (stats self)
    /\ seen_commands self'
       = {[ normalize_command "git commit -m x" ]} ∪ seen_commands self.
Proof.
  intros self.
  apply (ignore_rule_bypasses_filters self ": 5:0;git commit -m x"
           "5:0" "git commit -m x"); reflexivity.
Defined.

(** ** The branches of [_process_entry] *)

Lemma process_entry_malformed (self : ZshHistoryCleaner) (entry : string) :
  parse_history_entry entry = None ->
  _process_entry self entry = Ok (set_stats incr_malformed_removed self).
Proof. intros H. unfold _process_entry. now rewrite H. Qed.

Lemma process_entry_outcome
    (self self' : ZshHistoryCleaner) (entry timestamp_part command : string) :
  parse_history_entry entry = Some (timestamp_part, command) ->
  _process_entry self entry = Ok self' ->
  entry_outcome self timestamp_part command self'.
Proof.
  intros Hparse. unfold _process_entry. rewrite Hparse. fold (counted self).
  change (check_allow_rules (counted self) command)
    with (check_allow_rules self command).
  change (check_ignore_rules (counted self) command)
    with (check_ignore_rules self command).
  change (is_command_worth_keeping (counted self) command)
    with (is_command_worth_keeping self command).
  change (seen_commands (counted self)) with (seen_commands self).
  destruct (check_allow_rules self command) as [[|]|] eqn:Ha; simpl;
    [intros [= <-]; now constructor| |discriminate].
  destruct (check_ignore_rules self command) as [[|]|] eqn:Hi; simpl;
    [intros [= <-]; now constructor| |discriminate].
  destruct (is_command_worth_keeping self command)
    as [[[|] reason]|] eqn:Hw; simpl; [| |discriminate].
  - case_bool_decide as Hseen; intros [= <-].
    + now apply outcome_duplicate with reason.
    + now apply outcome_kept with reason.
  - destruct (String.eqb reason "too_long") eqn:Hr; intros [= <-].
    + apply String.eqb_eq in Hr. subst reason. now constructor.
    + apply String.eqb_neq in Hr. now apply outcome_pattern with reason.
Qed.

Lemma entry_outcome_process
    (self self' : ZshHistoryCleaner) (entry timestamp_part command : string) :
  parse_history_entry entry = Some (timestamp_part, command) ->
  entry_outcome self timestamp_part command self' ->
  _process_entry self entry = Ok self'.
Proof.
  intros Hparse Hout. unfold _process_entry. rewrite Hparse.
  fold (counted self).
  change (check_allow_rules (counted self) command)
    with (check_allow_rules self command).
  change (check_ignore_rules (counted self) command)
    with (check_ignore_rules self command).
  change (is_command_worth_keeping (counted self) command)
    with (is_command_worth_keeping self command).
  change (seen_commands (counted self)) with (seen_commands self).
  destruct Hout as [Ha|Ha Hi|Ha Hi Hw|r Ha Hi Hw Hr|r Ha Hi Hw Hs|r Ha Hi Hw Hs];
    rewrite Ha; simpl; try reflexivity; rewrite Hi; simpl; try reflexivity;
    rewrite Hw; simpl.
  - reflexivity.
  - apply String.eqb_neq in Hr. now rewrite Hr.
  - now rewrite bool_decide_eq_true_2.
  - now rewrite bool_decide_eq_false_2.
Qed.

(** The entry is kept exactly when the output grows, and then the command
    is recorded as seen. *)
Lemma entry_outcome_kept
    (self self' : ZshHistoryCleaner) (timestamp_part command : string) :
  entry_outcome self timestamp_part command self' ->
  cleaned_entries self' <> cleaned_entries self ->
  cleaned_entries self'
  = cleaned_entries self ++ [format_entry timestamp_part command]
  /\ normalize_command command ∈ seen_commands self'.
Proof.
  intros Hout Hne.
  destruct Hout; simpl in *; try (now exfalso; apply Hne);
    (split; [reflexivity|set_solver]).
Qed.

(** ** C1: entries with continuation lines *)

(** C1 asks that an entry with continuation lines be parsed into one
    command holding the line feeds. The code does not do it: the loop of
    [process_history] joins the two lines of the spec's example into one
    entry, the entry pattern then fails on it because its dot stops at the
    line feed, and the entry is counted as malformed and dropped, although
    its first line alone parses. *)
Theorem continuation_entry_is_malformed :
  let lines := [echo_continued +:+ PyStr.newline;
                ": not-a-new-entry" +:+ PyStr.newline] in
  let blob := echo_continued +:+ PyStr.newline +:+ ": not-a-new-entry" in
  let self := new_cleaner 500 [] [] in
  history_loop lines (self, EmptyString) = Ok (self, blob)
  /\ parse_history_entry echo_continued
     = Some ("5:0"%string, "echo " +:+ one_char PyStr.backslash)
  /\ parse_history_entry blob = None
  /\ exists self',
       process_history self lines = Ok self'
       /\ cleaned_entries self' = []
       /\ valid_entries (stats self') = 0
       /\ malformed_removed (stats self') = 1.
Proof.
  vm_compute. repeat split. eexists. repeat split.
Qed.

(** ** C4: rules and the trimmed command *)

(** C4 asks that the rules be evaluated on the trimmed command and that a
    command whose trimmed form matches a force-keep rule be kept without
    duplicate check. The code does not do it: [_process_entry] evaluates
    the rules on the command as parsed, where the leading blanks make the
    rule fail; [is_command_worth_keeping] then finds the rule on the
    trimmed command, but the caller goes on to the duplicate check and
    drops the entry. *)
Theorem trimmed_ignore_match_dropped_as_duplicate :
  let self := new_cleaner 500 [keep_git_commits] [] in
  let lines := [": 1:0;git commit -m x" +:+ PyStr.newline;
                ": 2:0;  git commit -m x" +:+ PyStr.newline] in
  check_ignore_rules self "  git commit -m x" = Ok false
  /\ check_ignore_rules self (PyStr.strip "  git commit -m x") = Ok true
  /\ is_command_worth_keeping self "  git commit -m x"
     = Ok (true, "ignore_rule_match"%string)
  /\ exists self',
       process_history self lines = Ok self'
       /\ cleaned_entries self' = [": 1:0;git commit -m x"%string]
       /\ ignored_kept (stats self') = 1
       /\ duplicates_removed (stats self') = 1.
Proof.
  vm_compute. repeat split. eexists. repeat split.
Qed.

(** ** The worked examples of the spec *)

Example duplicate_example :
  exists self',
    process_history (new_cleaner 500 [] [])
      [": 111:0;echo hi" +:+ PyStr.newline;
       ": 111:0;echo hi" +:+ PyStr.newline] = Ok self'
    /\ cleaned_entries self' = [": 111:0;echo hi"%string]
    /\ duplicates_removed (stats self') = 1.
Proof. eexists. split; [reflexivity|]. split; reflexivity. Qed.

Example too_long_example :
  exists self',
    process_history (new_cleaner 500 [] [])
      [": 5:0;" +:+ repeat_char "a" 600] = Ok self'
    /\ cleaned_entries self' = []
    /\ too_long_removed (stats self') = 1.
Proof. vm_compute. eexists. split; [reflexivity|]. split; reflexivity. Qed.

Example dashes_example :
  exists self',
    process_history (new_cleaner 500 [] [])
      [": 5:0;" +:+ repeat_char "-" 25] = Ok self'
    /\ cleaned_entries self' = []
    /\ pattern_removed (stats self') = 1
    /\ is_command_worth_keeping (new_cleaner 500 [] []) (repeat_char "-" 25)
       = Ok (false, "repetitive_pattern"%string).
Proof. vm_compute. eexists. split; [reflexivity|]. repeat split. Qed.

(** ** C9: round trip *)

(** C9. When a parsed entry is kept, the line appended to the output is
    the colon, the space, the time stamp, the semicolon and the command as
    parsed, and parsing that line again (with or without the line feed
    that the writer adds) gives the same time stamp and the same
    command. *)
Theorem kept_entry_round_trip
    (self self' : ZshHistoryCleaner) (entry timestamp_part command : string) :
  parse_history_entry entry = Some (timestamp_part, command) ->
  _process_entry self entry = Ok self' ->
  cleaned_entries self' <> cleaned_entries self ->
  cleaned_entries self'
  = cleaned_entries self ++ [format_entry timestamp_part command]
  /\ parse_history_entry (format_entry timestamp_part command)
     = Some (timestamp_part, command)
  /\ parse_history_entry
       (format_entry timestamp_part command +:+ PyStr.newline)
     = Some (timestamp_part, command).
Proof.
  intros Hparse Hrun Hkept.
  pose proof (process_entry_outcome _ _ _ _ _ Hparse Hrun) as Hout.
  destruct (entry_outcome_kept _ _ _ _ Hout Hkept) as [Hc _].
  split; [exact Hc|].
  apply entry_shape_parse. now apply parse_history_entry_shape in Hparse.
Qed.

Lemma kept_entry_round_trip_witness :
  let self := new_cleaner 500 [] [] in
  exists self',
    _process_entry self (": 5:0;echo  hi; ls" +:+ PyStr.newline) = Ok self'
    /\ cleaned_entries self'
       = cleaned_entries self ++ [format_entry "5:0" "echo  hi; ls"]
    /\ parse_history_entry (format_entry "5:0" "echo  hi; ls")
       = Some ("5:0"%string, "echo  hi; ls"%string)
    /\ parse_history_entry (format_entry "5:0" "echo  hi; ls" +:+ PyStr.newline)
       = Some ("5:0"%string, "echo  hi; ls"%string).
Proof.
  intros self. eexists. split; [reflexivity|].
  apply (kept_entry_round_trip self _
           (": 5:0;echo  hi; ls" +:+ PyStr.newline) "5:0" "echo  hi; ls").
  - reflexivity.
  - reflexivity.
  - discriminate.
Defined.

(** ** The run as a sequence of steps *)

Lemma history_step_run_step
    (self self' : ZshHistoryCleaner) (cur cur' line : string) :
  history_step (self, cur) line = Ok (self', cur') ->
  self' = self \/ run_step self self'.
Proof.
  unfold history_step.
  destruct (PyStr.startswith ": " (PyStr.rstrip_newlines line)
            && PyStr.contains ":" (PyStr.rstrip_newlines line)
            && PyStr.contains ";" (PyStr.rstrip_newlines line)).
  - destruct (negb (PyStr.is_empty cur)); simpl.
    + destruct (_process_entry self cur) as [s|] eqn:Hp; simpl;
        [|discriminate].
      intros [= <- _]. right. now apply step_entry with cur.
    + intros [= <- _]. now left.
  - destruct (negb (PyStr.is_empty cur)).
    + intros [= <- _]. now left.
    + intros [= <- _]. right. constructor.
Qed.

Lemma history_loop_run_steps (lines : list string)
    (self self' : ZshHistoryCleaner) (cur cur' : string) :
  history_loop lines (self, cur) = Ok (self', cur') ->
  rtc run_step self self'.
Proof.
  revert self cur. induction lines as [|line rest IH]; simpl; intros self cur.
  - intros [= <- _]. constructor.
  - destruct (history_step (self, cur) line) as [[s c]|] eqn:Hs; simpl;
      [|discriminate].
    intros Hrest. apply IH in Hrest.
    destruct (history_step_run_step _ _ _ _ _ Hs) as [->|Hstep];
      [exact Hrest|].
    now apply rtc_l with s.
Qed.

(** A completed run is a sequence of steps from the object with its line
    count set, followed by the setting of [final_entries]. *)
Lemma process_history_run_steps
    (self self' : ZshHistoryCleaner) (lines : list string) :
  process_history self lines = Ok self' ->
  exists last,
    rtc run_step
      (set_stats (set_total_lines (Z.of_nat (length lines))) self) last
    /\ self' = set_stats
                 (set_final_entries
                    (Z.of_nat (length (cleaned_entries last)))) last.
Proof.
  unfold process_history.
  destruct (history_loop lines _) as [[s cur]|] eqn:Hloop; simpl;
    [|discriminate].
  apply history_loop_run_steps in Hloop.
  destruct (negb (PyStr.is_empty cur)); simpl.
  - destruct (_process_entry s cur) as [s'|] eqn:Hp; simpl; [|discriminate].
    intros [= <-]. exists s'. split; [|reflexivity].
    eapply rtc_r; [exact Hloop|]. now apply step_entry with cur.
  - intros [= <-]. exists s. auto.
Qed.

Lemma run_step_cases (self self' : ZshHistoryCleaner) :
  run_step self self' ->
  self' = set_stats incr_malformed_removed self
  \/ exists timestamp_part command,
       entry_outcome self timestamp_part command self'.
Proof.
  intros [s entry s' Hp|s]; [|now left].
  destruct (parse_history_entry entry) as [[ts cmd]|] eqn:Hparse.
  - right. exists ts, cmd. now apply process_entry_outcome with entry.
  - left. rewrite (process_entry_malformed _ _ Hparse) in Hp. congruence.
Qed.

Lemma run_step_same_config (self self' : ZshHistoryCleaner) :
  run_step self self' -> same_config self self'.
Proof.
  intros H. apply run_step_cases in H as [->|(ts & cmd & Hout)].
  - repeat split.
  - destruct Hout; repeat split.
Qed.

Lemma run_steps_same_config (self self' : ZshHistoryCleaner) :
  rtc run_step self self' -> same_config self self'.
Proof.
  induction 1 as [s|s1 s2 s3 H12 _ IH]; [repeat split|].
  apply run_step_same_config in H12.
  destruct H12 as (?&?&?), IH as (?&?&?). repeat split; congruence.
Qed.

Lemma run_step_seen (self self' : ZshHistoryCleaner) :
  run_step self self' -> seen_commands self ⊆ seen_commands self'.
Proof.
  intros H. apply run_step_cases in H as [->|(ts & cmd & Hout)].
  - reflexivity.
  - destruct Hout; simpl; set_solver.
Qed.

Lemma run_steps_seen (self self' : ZshHistoryCleaner) :
  rtc run_step self self' -> seen_commands self ⊆ seen_commands self'.
Proof.
  induction 1 as [s|s1 s2 s3 H12 _ IH]; [reflexivity|].
  apply run_step_seen in H12. set_solver.
Qed.

Lemma run_step_accounted (self self' : ZshHistoryCleaner) :
  run_step self self' -> accounted self -> accounted self'.
Proof.
  intros H. apply run_step_cases in H as [->|(ts & cmd & Hout)].
  - unfold accounted. simpl. auto.
  - unfold accounted. destruct Hout; simpl; rewrite ?length_app; simpl; lia.
Qed.

Lemma run_steps_accounted (self self' : ZshHistoryCleaner) :
  rtc run_step self self' -> accounted self -> accounted self'.
Proof.
  induction 1 as [s|s1 s2 s3 H12 _ IH]; [auto|].
  intros Ha. apply IH. now apply run_step_accounted with s1.
Qed.

(** ** C10: the statistics account for every valid entry *)

(** C10. At the end of a run that completes, started on the object as the
    constructor leaves it, [final_entries] is the number of valid entries
    minus the four removal counters; [malformed_removed] has no part in
    it. *)
Theorem statistics_accounting
    (max_len : Z) (ignore allow : list FilterRule) (lines : list string)
    (self' : ZshHistoryCleaner) :
  process_history (new_cleaner max_len ignore allow) lines = Ok self' ->
  final_entries (stats self')
  = valid_entries (stats self') - allowed_removed (stats self')
    - too_long_removed (stats self') - pattern_removed (stats self')
    - duplicates_removed (stats self').
Proof.
  intros Hrun.
  apply process_history_run_steps in Hrun as (last & Hsteps & ->).
  apply run_steps_accounted in Hsteps; [|reflexivity].
  unfold accounted in Hsteps. simpl. lia.
Qed.

Lemma statistics_accounting_witness :
  let lines := ["orphan" +:+ PyStr.newline;
                ": 1:0;git commit -m x" +:+ PyStr.newline;
                ": 2:0;ls" +:+ PyStr.newline;
                ": 3:0;ls  " +:+ PyStr.newline;
                ": 4:0;make ====================" +:+ PyStr.newline] in
  exists self',
    process_history (new_cleaner 500 [keep_git_commits] []) lines = Ok self'
    /\ final_entries (stats self') = 2
    /\ final_entries (stats self')
       = valid_entries (stats self') - allowed_removed (stats self')
         - too_long_removed (stats self') - pattern_removed (stats self')
         - duplicates_removed (stats self').
Proof.
  intros lines. eexists. split; [reflexivity|]. split; [reflexivity|].
  apply (statistics_accounting 500 [keep_git_commits] [] lines).
  reflexivity.
Defined.

(** ** C7: a later duplicate is dropped *)

(** The standard filters let a command pass, without reason, when its
    trimmed form is not empty, matches no rule, is short enough and shows
    no noise pattern. *)
Lemma worth_keeping_plain (self : ZshHistoryCleaner) (command : string) :
  PyStr.strip command <> EmptyString ->
  check_allow_rules self (PyStr.strip command) = Ok false ->
  check_ignore_rules self (PyStr.strip command) = Ok false ->
  PyStr.len (PyStr.strip command) <= max_command_length self ->
  existsb (fun search => search (PyStr.strip command))
          Regex.repetitive_patterns = false ->
  is_command_worth_keeping self command = Ok (true, EmptyString).
Proof.
  intros Hne Ha Hi Hlen Hnoise. unfold is_command_worth_keeping.
  apply StrFacts.is_empty_false in Hne. rewrite Hne, Ha.
  unfold mbind, result_bind. cbv beta iota. rewrite Hi. cbv beta iota.
  rewrite Hnoise.
  destruct (Z.gtb_spec (PyStr.len (PyStr.strip command))
              (max_command_length self)); [lia|reflexivity].
Qed.

(** C7. In a run, let a valid entry be kept (as a plain keep or through a
    force-keep rule), and let a later valid entry have the same normalised
    command, match no force-remove and no force-keep rule (neither as
    parsed nor trimmed), and pass the empty, length and noise checks. Then
    the later entry is dropped as a duplicate: [duplicates_removed] is
    incremented and nothing is appended to the output. *)
Theorem later_duplicate_dropped
    (self0 self1 self2 : ZshHistoryCleaner)
    (e1 ts1 c1 e2 ts2 c2 : string) :
  parse_history_entry e1 = Some (ts1, c1) ->
  _process_entry self0 e1 = Ok self1 ->
  cleaned_entries self1 <> cleaned_entries self0 ->
  rtc run_step self1 self2 ->
  parse_history_entry e2 = Some (ts2, c2) ->
  normalize_command c2 = normalize_command c1 ->
  check_allow_rules self2 c2 = Ok false ->
  check_ignore_rules self2 c2 = Ok false ->
  check_allow_rules self2 (PyStr.strip c2) = Ok false ->
  check_ignore_rules self2 (PyStr.strip c2) = Ok false ->
  PyStr.strip c2 <> EmptyString ->
  PyStr.len (PyStr.strip c2) <= max_command_length self2 ->
  existsb (fun search => search (PyStr.strip c2))
          Regex.repetitive_patterns = false ->
  exists self3,
    _process_entry self2 e2 = Ok self3
    /\ duplicates_removed (stats self3) = duplicates_removed (stats self2) + 1
    /\ cleaned_entries self3 = cleaned_entries self2
    /\ seen_commands self3 = seen_commands self2.
Proof.
  intros Hp1 Hrun1 Hkept Hsteps Hp2 Hnorm Ha Hi Hsa Hsi Hne Hlen Hnoise.
  pose proof (worth_keeping_plain self2 c2 Hne Hsa Hsi Hlen Hnoise) as Hw.
  pose proof (process_entry_outcome _ _ _ _ _ Hp1 Hrun1) as Hout.
  destruct (entry_outcome_kept _ _ _ _ Hout Hkept) as [_ Hseen].
  apply run_steps_seen in Hsteps.
  assert (Hin : normalize_command c2 ∈ seen_commands self2)
    by (rewrite Hnorm; set_solver).
  eexists. split.
  - apply entry_outcome_process with ts2 c2; [exact Hp2|].
    now apply outcome_duplicate with EmptyString.
  - simpl. auto.
Qed.

Lemma later_duplicate_dropped_witness :
  let self0 := new_cleaner 500 [keep_git_commits] [] in
  let self1 :=
    keep_entry "echo hi" ": 1:0;echo  hi" (counted self0) in
  let self2 :=
    set_stats incr_malformed_removed
      (keep_entry "ls" ": 2:0;ls" (counted self1)) in
  _process_entry self0 ": 1:0;echo  hi" = Ok self1
  /\ process_entries self1 [": 2:0;ls"%string; "orphan"%string] = Ok self2
  /\ exists self3,
       _process_entry self2 ": 3:0; echo hi " = Ok self3
       /\ duplicates_removed (stats self3)
          = duplicates_removed (stats self2) + 1
       /\ cleaned_entries self3 = cleaned_entries self2
       /\ seen_commands self3 = seen_commands self2.
Proof.
  intros self0 self1 self2.
  split; [reflexivity|]. split; [reflexivity|].
  apply (later_duplicate_dropped self0 self1 self2
           ": 1:0;echo  hi" "1:0" "echo  hi"
           ": 3:0; echo hi " "3:0" " echo hi ");
    try reflexivity.
  - discriminate.
  - eapply rtc_l; [apply step_entry with ": 2:0;ls"%string; reflexivity|].
    eapply rtc_l; [apply step_entry with "orphan"%string; reflexivity|].
    apply rtc_refl.
  - discriminate.
  - vm_compute. discriminate.
Defined.

(** ** Runs that complete *)






(** ** Lines read and written *)

Module LineFacts.
Import PyStr.

Lemma rstrip_by_drop p (a b : string) :
  all p b = true -> rstrip_by p (a +:+ b) = rstrip_by p a.
Proof.
  intros Hb. induction a as [|c a IH]; simpl.
  - induction b as [|x b IHb]; simpl in *; [reflexivity|].
    apply andb_true_iff in Hb as [Hx Hb]. now rewrite (IHb Hb), Hx.
  - now rewrite IH.
Qed.

Lemma rstrip_by_keep p (a : string) :
  all (fun c => negb (p c)) a = true -> rstrip_by p a = a.
Proof.
  induction a as [|c a IH]; simpl; [reflexivity|].
  intros H. apply andb_true_iff in H as [Hc Ha].
  apply negb_true_iff in Hc. now rewrite (IH Ha), Hc, andb_false_r.
Qed.

Lemma rstrip_line (e : string) :
  no_crlf e = true -> rstrip_newlines (e +:+ newline) = e.
Proof.
  intros He. unfold rstrip_newlines.
  rewrite rstrip_by_drop by reflexivity. now apply rstrip_by_keep.
Qed.

Lemma no_crlf_no_cr (s : string) :
  no_crlf s = true <-> no_cr s = true /\ all isdot s = true.
Proof.
  unfold no_crlf, no_cr. induction s as [|c s IH]; simpl; [tauto|].
  rewrite !andb_true_iff, IH. unfold is_crlf, isdot.
  destruct (Ascii.eqb c LF), (Ascii.eqb c CR); simpl; intuition congruence.
Qed.

Lemma universal_newlines_no_cr (s : string) :
  no_cr (universal_newlines s) = true.
Proof.
  assert (H : forall n s, (String.length s <= n)%nat ->
                          no_cr (universal_newlines s) = true).
  { clear s. induction n as [|n IH]; intros [|c s]; simpl; intros Hn;
      try reflexivity; try lia.
    destruct (Ascii.eqb c CR) eqn:Hc.
    - unfold no_cr. simpl. destruct s as [|d s]; [reflexivity|].
      destruct (Ascii.eqb d LF).
      + apply IH. simpl in Hn. lia.
      + apply (IH (String d s)). lia.
    - unfold no_cr. simpl. rewrite Hc. simpl. apply IH. lia. }
  now apply (H (String.length s)).
Qed.

Lemma universal_newlines_id (s : string) :
  no_cr s = true -> universal_newlines s = s.
Proof.
  unfold no_cr. induction s as [|c s IH]; simpl; [reflexivity|].
  intros H. apply andb_true_iff in H as [Hc Hs].
  apply negb_true_iff in Hc. now rewrite Hc, (IH Hs).
Qed.

(** Every line read has no carriage return and no line feed once its end
    is stripped. *)
Lemma split_lines_stripped (s : string) :
  no_cr s = true ->
  Forall (fun l => no_crlf (rstrip_newlines l) = true) (split_lines s).
Proof.
  unfold no_cr. induction s as [|c s IH]; simpl; [constructor|].
  intros H. apply andb_true_iff in H as [Hc Hs]. specialize (IH Hs).
  destruct (Ascii.eqb c LF) eqn:Hlf.
  - constructor; [|exact IH]. reflexivity.
  - assert (Hk : is_crlf c = false).
    { unfold is_crlf. apply negb_true_iff in Hc. now rewrite Hlf, Hc. }
    destruct (split_lines s) as [|l ls].
    + constructor; [|constructor]. unfold rstrip_newlines, no_crlf. simpl.
      rewrite Hk. simpl. now rewrite Hk.
    + inversion IH as [|? ? Hl Hls]; subst. constructor; [|exact Hls].
      unfold rstrip_newlines, no_crlf in *. simpl.
      rewrite Hk, andb_false_r. simpl. now rewrite Hk, Hl.
Qed.

Lemma readlines_stripped (content : string) :
  Forall (fun l => no_crlf (rstrip_newlines l) = true) (readlines content).
Proof. apply split_lines_stripped, universal_newlines_no_cr. Qed.

Lemma split_lines_line (e rest : string) :
  all isdot e = true ->
  split_lines (e +:+ String LF rest) = (e +:+ newline) :: split_lines rest.
Proof.
  induction e as [|c e IH]; simpl; [reflexivity|].
  intros H. apply andb_true_iff in H as [Hc He].
  unfold isdot in Hc. apply negb_true_iff in Hc. rewrite Hc, (IH He).
  reflexivity.
Qed.

Lemma no_cr_app (a b : string) :
  no_cr (a +:+ b) = no_cr a && no_cr b.
Proof. apply StrFacts.all_app. Qed.

(** Reading back what the writer wrote gives the entries, each with its
    line feed. *)
Lemma readlines_written (entries : list string) :
  Forall (fun e => no_crlf e = true) entries ->
  readlines (concat (map (fun e => e +:+ newline) entries))
  = map (fun e => e +:+ newline) entries.
Proof.
  intros H. unfold readlines.
  rewrite universal_newlines_id.
  - induction H as [|e es He _ IH]; simpl; [reflexivity|].
    apply no_crlf_no_cr in He as [_ He].
    rewrite StrFacts.app_assoc. simpl.
    now rewrite (split_lines_line _ _ He), IH.
  - induction H as [|e es He _ IH]; simpl; [reflexivity|].
    apply no_crlf_no_cr in He as [He _].
    now rewrite !no_cr_app, He, IH.
Qed.

Lemma contains_app_r (p a b : string) :
  contains p b = true -> contains p (a +:+ b) = true.
Proof.
  intros Hb. induction a as [|c a IH]; simpl; [exact Hb|].
  rewrite IH. apply orb_true_r.
Qed.

End LineFacts.

(** ** The kept entries of a run *)

Lemma same_config_checks (a b : ZshHistoryCleaner) (command : string) :
  same_config a b ->
  check_allow_rules a command = check_allow_rules b command
  /\ check_ignore_rules a command = check_ignore_rules b command
  /\ is_command_worth_keeping a command = is_command_worth_keeping b command.
Proof.
  intros (Hm & Hi & Ha).
  unfold is_command_worth_keeping, check_allow_rules, check_ignore_rules.
  now rewrite Hm, Hi, Ha.
Qed.

Lemma kept_state_set_stats cfg kept self f :
  kept_state cfg kept self -> kept_state cfg kept (set_stats f self).
Proof.
  intros (Hc & Hl & Hs). split; [exact Hc|]. split; [exact Hl|exact Hs].
Qed.

Lemma lines_of_snoc kept ts cmd :
  lines_of (kept ++ [(ts, cmd)]) = lines_of kept ++ [format_entry ts cmd].
Proof. unfold lines_of. now rewrite map_app. Qed.

Lemma normalized_of_snoc kept ts cmd x :
  x ∈ normalized_of (kept ++ [(ts, cmd)])
  <-> x = normalize_command cmd \/ x ∈ normalized_of kept.
Proof.
  unfold normalized_of. rewrite map_app. simpl.
  rewrite elem_of_app, elem_of_cons, elem_of_nil. tauto.
Qed.

Lemma kept_state_keep cfg kept self ts cmd :
  kept_state cfg kept self ->
  kept_state cfg (kept ++ [(ts, cmd)])
    (keep_entry (normalize_command cmd) (format_entry ts cmd) self).
Proof.
  intros (Hc & Hl & Hs). split; [exact Hc|]. split.
  - simpl. now rewrite Hl, lines_of_snoc.
  - intros x. rewrite normalized_of_snoc. simpl. rewrite <- Hs.
    rewrite elem_of_union, elem_of_singleton. reflexivity.
Qed.

(** A command parsed from an entry without carriage return has none. *)
Lemma parsed_command_no_cr (entry ts cmd : string) :
  no_cr entry = true ->
  parse_history_entry entry = Some (ts, cmd) ->
  no_cr cmd = true.
Proof.
  intros Hcr Hp. apply parse_history_entry_shape in Hp as [_ Hl].
  assert (H : no_cr (format_entry ts cmd) = true).
  { destruct Hl as [Hl|Hl]; rewrite Hl in Hcr; [exact Hcr|].
    rewrite LineFacts.no_cr_app in Hcr.
    now apply andb_true_iff in Hcr as [Hcr _]. }
  unfold format_entry in H. rewrite !LineFacts.no_cr_app in H.
  repeat (apply andb_true_iff in H; destruct H as [_ H]). exact H.
Qed.

(** Processing an entry keeps the description of the object by its kept
    entries. *)
Lemma process_entry_kept_ok cfg kept self self' (entry : string) :
  kept_ok cfg kept -> kept_state cfg kept self ->
  no_cr entry = true ->
  _process_entry self entry = Ok self' ->
  exists kept', kept_ok cfg kept' /\ kept_state cfg kept' self'.
Proof.
  intros Hok Hst Hcr Hrun.
  destruct (parse_history_entry entry) as [[ts cmd]|] eqn:Hp.
  - pose proof (parsed_command_no_cr _ _ _ Hcr Hp) as Hcmd.
    pose proof (proj1 (parse_history_entry_shape _ _ _ Hp)) as Hshape.
    apply (process_entry_outcome _ _ _ _ _ Hp) in Hrun.
    destruct Hst as (Hc & Hl & Hs).
    destruct (same_config_checks cfg self cmd Hc) as (Ea & Ei & Ew).
    assert (Hst' : kept_state cfg kept (counted self))
      by (split; [exact Hc|]; split; [exact Hl|exact Hs]).
    destruct Hrun as [Ha|Ha Hi|Ha Hi Hw|r Ha Hi Hw Hr|r Ha Hi Hw Hin
                     |r Ha Hi Hw Hnin];
      try (exists kept; split; [exact Hok|];
           now apply kept_state_set_stats).
    + exists (kept ++ [(ts, cmd)]). split.
      * constructor; try assumption; [congruence|]. left. congruence.
      * apply kept_state_keep. now apply kept_state_set_stats.
    + exists (kept ++ [(ts, cmd)]). split.
      * constructor; try assumption; [congruence|]. right.
        split; [congruence|]. split; [exists r; congruence|].
        now rewrite <- Hs.
      * now apply kept_state_keep.
  - rewrite (process_entry_malformed _ _ Hp) in Hrun.
    injection Hrun as <-. exists kept. split; [exact Hok|].
    now apply kept_state_set_stats.
Qed.

Lemma history_step_kept_ok cfg kept self self' (cur cur' line : string) :
  kept_ok cfg kept -> kept_state cfg kept self ->
  no_cr cur = true ->
  no_crlf (PyStr.rstrip_newlines line) = true ->
  history_step (self, cur) line = Ok (self', cur') ->
  (exists kept', kept_ok cfg kept' /\ kept_state cfg kept' self')
  /\ no_cr cur' = true.
Proof.
  intros Hok Hst Hcur Hline. unfold history_step.
  apply LineFacts.no_crlf_no_cr in Hline as [Hline _].
  destruct (PyStr.startswith ": " (PyStr.rstrip_newlines line)
            && PyStr.contains ":" (PyStr.rstrip_newlines line)
            && PyStr.contains ";" (PyStr.rstrip_newlines line)).
  - destruct (negb (PyStr.is_empty cur)); simpl.
    + destruct (_process_entry self cur) as [s|] eqn:Hp; simpl;
        [|discriminate].
      intros [= <- <-]. split; [|exact Hline].
      now apply (process_entry_kept_ok cfg kept self s cur).
    + intros [= <- <-]. split; [|exact Hline]. now exists kept.
  - destruct (negb (PyStr.is_empty cur)).
    + intros [= <- <-]. split; [now exists kept|].
      rewrite LineFacts.no_cr_app, Hcur. unfold no_cr in *. simpl.
      exact Hline.
    + intros [= <- <-]. split; [|exact Hcur].
      exists kept. split; [exact Hok|]. now apply kept_state_set_stats.
Qed.

Lemma history_loop_kept_ok cfg (lines : list string) :
  Forall (fun l => no_crlf (PyStr.rstrip_newlines l) = true) lines ->
  forall kept self self' (cur cur' : string),
    kept_ok cfg kept -> kept_state cfg kept self ->
    no_cr cur = true ->
    history_loop lines (self, cur) = Ok (self', cur') ->
    (exists kept', kept_ok cfg kept' /\ kept_state cfg kept' self')
    /\ no_cr cur' = true.
Proof.
  induction 1 as [|line rest Hline _ IH]; simpl;
    intros kept self self' cur cur' Hok Hst Hcur.
  - intros [= <- <-]. split; [now exists kept|exact Hcur].
  - destruct (history_step (self, cur) line) as [[s c]|] eqn:Hs; simpl;
      [|discriminate].
    destruct (history_step_kept_ok _ _ _ _ _ _ _ Hok Hst Hcur Hline Hs)
      as ((kept1 & Hok1 & Hst1) & Hc).
    now apply (IH kept1).
Qed.

(** The output of a completed run on the lines of a file is described by
    a list of kept entries. *)
Lemma process_history_kept_ok
    (max_len : Z) (ignore allow : list FilterRule) (content : string)
    (self' : ZshHistoryCleaner) :
  let cfg := new_cleaner max_len ignore allow in
  process_history cfg (readlines content) = Ok self' ->
  exists kept, kept_ok cfg kept /\ cleaned_entries self' = lines_of kept.
Proof.
  intros cfg. unfold process_history.
  destruct (history_loop (readlines content) _) as [[s cur]|] eqn:Hloop;
    simpl; [|discriminate].
  apply (history_loop_kept_ok cfg _ (LineFacts.readlines_stripped content) [])
    in Hloop as ((kept & Hok & Hst) & Hcur);
    [|constructor|split; [repeat split|]; split; [reflexivity|set_solver]
     |reflexivity].
  destruct (negb (PyStr.is_empty cur)); simpl.
  - destruct (_process_entry s cur) as [s'|] eqn:Hp; simpl; [|discriminate].
    intros [= <-].
    destruct (process_entry_kept_ok _ _ _ _ _ Hok Hst Hcur Hp)
      as (kept' & Hok' & Hst').
    exists kept'. split; [exact Hok'|]. apply Hst'.
  - intros [= <-]. exists kept. split; [exact Hok|]. apply Hst.
Qed.

(** ** The second pass *)

Lemma result_bind_ret {A} (m : result A) : (m ≫= Ok) = m.
Proof. now destruct m. Qed.

Lemma process_entries_app self (a b : list string) :
  process_entries self (a ++ b)
  = (self' ← process_entries self a; process_entries self' b).
Proof.
  revert self. induction a as [|e a IH]; simpl; intros self; [reflexivity|].
  destruct (_process_entry self e) as [s|]; simpl; [apply IH|reflexivity].
Qed.

(** The output line of a kept entry is one line, and starts an entry. *)
Lemma kept_line_good (ts cmd : string) :
  entry_shape ts cmd -> no_cr cmd = true ->
  no_crlf (format_entry ts cmd) = true
  /\ is_entry_start (format_entry ts cmd) = true.
Proof.
  intros Hshape Hcr. split.
  - apply LineFacts.no_crlf_no_cr. split.
    + destruct Hshape as (d1 & d2 & -> & A1 & _ & A2 & _ & _).
      unfold format_entry. rewrite !LineFacts.no_cr_app, Hcr.
      assert (D : forall d, PyStr.all PyStr.isdigit d = true ->
                            no_cr d = true).
      { unfold no_cr. induction d as [|c d IH]; simpl; [reflexivity|].
        intros H. apply andb_true_iff in H as [Hc Hd]. rewrite (IH Hd).
        destruct (Ascii.eqb c PyStr.CR) eqn:E; [|reflexivity].
        apply Ascii.eqb_eq in E. subst c. discriminate. }
      now rewrite (D _ A1), (D _ A2).
    + now apply entry_shape_one_line.
  - destruct Hshape as (d1 & d2 & -> & _).
    change (":" +:+ d2) with (String ":" d2).
    rewrite format_entry_unfold. unfold is_entry_start.
    apply andb_true_iff. split; [reflexivity|].
    change (PyStr.contains ";" (String ":" (String PyStr.space
              (d1 +:+ String ":" (d2 +:+ String ";" cmd)))))
      with (PyStr.contains ";" (d1 +:+ String ":" (d2 +:+ String ";" cmd))).
    apply LineFacts.contains_app_r.
    change (PyStr.contains ";" (String ":" (d2 +:+ String ";" cmd)))
      with (PyStr.contains ";" (d2 +:+ String ";" cmd)).
    now apply LineFacts.contains_app_r.
Qed.

Lemma history_step_entry_line self (cur e : string) :
  no_crlf e = true -> is_entry_start e = true ->
  history_step (self, cur) (e +:+ PyStr.newline)
  = (self' ← flush_entry (self, cur); Ok (self', e)).
Proof.
  intros He Hs. unfold history_step, flush_entry.
  rewrite (LineFacts.rstrip_line _ He).
  unfold is_entry_start in Hs. rewrite Hs. reflexivity.
Qed.

(** On lines that all start an entry, the loop followed by the last flush
    processes the entries one after the other. *)
Lemma history_loop_entries (entries : list string) :
  Forall (fun e => no_crlf e = true /\ is_entry_start e = true) entries ->
  forall self cur,
    (history_loop (map (fun e => e +:+ PyStr.newline) entries) (self, cur)
     ≫= flush_entry)
    = (self' ← flush_entry (self, cur); process_entries self' entries).
Proof.
  induction 1 as [|e es [He Hs] _ IH]; simpl; intros self cur.
  - now rewrite result_bind_ret.
  - rewrite (history_step_entry_line _ _ _ He Hs).
    destruct (flush_entry (self, cur)) as [s|]; simpl; [|reflexivity].
    rewrite IH. unfold flush_entry. simpl.
    destruct e; [discriminate|reflexivity].
Qed.

Lemma process_history_entries self (entries : list string) :
  Forall (fun e => no_crlf e = true /\ is_entry_start e = true) entries ->
  process_history self (map (fun e => e +:+ PyStr.newline) entries)
  = (last ← process_entries
              (set_stats (set_total_lines (Z.of_nat (length entries))) self)
              entries;
     Ok (set_stats
           (set_final_entries (Z.of_nat (length (cleaned_entries last))))
           last)).
Proof.
  intros H. unfold process_history. rewrite length_map.
  pose proof (history_loop_entries _ H
    (set_stats (set_total_lines (Z.of_nat (length entries))) self)
    EmptyString) as E.
  change (flush_entry (_, EmptyString)) with
    (Ok (set_stats (set_total_lines (Z.of_nat (length entries))) self)) in E.
  simpl in E. rewrite <- E.
  destruct (history_loop _ _) as [[s c]|]; reflexivity.
Qed.

Lemma kept_ok_lines_good cfg kept :
  kept_ok cfg kept ->
  Forall (fun e => no_crlf e = true /\ is_entry_start e = true)
         (lines_of kept).
Proof.
  induction 1 as [|kept ts cmd _ IH Hshape Hcr _ _]; [constructor|].
  rewrite lines_of_snoc. apply Forall_app. split; [exact IH|].
  constructor; [|constructor]. now apply kept_line_good.
Qed.

(** Processing the output lines of the kept entries, from an object that
    holds nothing, keeps each of them again and finds no duplicate. *)
Lemma process_entries_replay cfg kept :
  kept_ok cfg kept ->
  forall self0,
    kept_state cfg [] self0 ->
    exists self,
      process_entries self0 (lines_of kept) = Ok self
      /\ kept_state cfg kept self
      /\ duplicates_removed (stats self) = duplicates_removed (stats self0).
Proof.
  induction 1 as [|kept ts cmd _ IH Hshape Hcr Ha Hkeep]; intros self0 H0.
  - exists self0. auto.
  - destruct (IH self0 H0) as (s & Hrun & Hst & Hdup).
    rewrite lines_of_snoc, process_entries_app, Hrun. simpl.
    destruct (entry_shape_parse _ _ Hshape) as [Hparse _].
    pose proof Hst as (Hc & Hl & Hs).
    destruct (same_config_checks cfg s cmd Hc) as (Ea & Ei & Ew).
    destruct Hkeep as [Hi|(Hi & (r & Hw) & Hnew)].
    + rewrite (entry_outcome_process s _ _ ts cmd Hparse
                 (outcome_ignored s ts cmd
                    (eq_trans (eq_sym Ea) Ha) (eq_trans (eq_sym Ei) Hi))).
      simpl. eexists. split; [reflexivity|]. split; [|exact Hdup].
      apply kept_state_keep. now apply kept_state_set_stats.
    + assert (Hnin : normalize_command cmd ∉ seen_commands s)
        by now rewrite Hs.
      rewrite (entry_outcome_process s _ _ ts cmd Hparse
                 (outcome_kept s ts cmd r
                    (eq_trans (eq_sym Ea) Ha) (eq_trans (eq_sym Ei) Hi)
                    (eq_trans (eq_sym Ew) Hw) Hnin)).
      simpl. eexists. split; [reflexivity|]. split; [|exact Hdup].
      apply kept_state_keep. now apply kept_state_set_stats.
Qed.

(** ** C8: the second pass removes no duplicate *)

(** C8. Let a run on a history file complete, and let its output be
    written and read again by a second run with the same rules and the
    same maximal length. Then the second run completes, removes no
    duplicate, and keeps every entry of the first output, in order. *)
Theorem second_pass_removes_no_duplicate
    (max_len : Z) (ignore allow : list FilterRule) (content : string)
    (first : ZshHistoryCleaner) :
  process_history (new_cleaner max_len ignore allow) (readlines content)
  = Ok first ->
  exists second,
    process_history (new_cleaner max_len ignore allow)
      (readlines (write_cleaned_history first)) = Ok second
    /\ duplicates_removed (stats second) = 0
    /\ cleaned_entries second = cleaned_entries first.
Proof.
  intros Hfirst.
  apply process_history_kept_ok in Hfirst as (kept & Hok & Hlines).
  pose proof (kept_ok_lines_good _ _ Hok) as Hgood.
  unfold write_cleaned_history. rewrite Hlines.
  rewrite LineFacts.readlines_written
    by (eapply Forall_impl; [exact Hgood|]; now intros e [He _]).
  rewrite (process_history_entries _ _ Hgood).
  destruct (process_entries_replay _ _ Hok
              (set_stats
                 (set_total_lines (Z.of_nat (length (lines_of kept))))
                 (new_cleaner max_len ignore allow)))
    as (s & Hrun & (_ & Hl & _) & Hdup).
  { split; [repeat split|]. split; [reflexivity|]. intros x. simpl.
    split; intros Hx; [now apply not_elem_of_empty in Hx
                      |now apply elem_of_nil in Hx]. }
  rewrite Hrun. simpl. eexists. split; [reflexivity|]. simpl.
  split; [exact Hdup|exact Hl].
Qed.

Lemma second_pass_removes_no_duplicate_witness :
  let content :=
    ": 1:0;git commit -m a" +:+ PyStr.newline
    +:+ ": 2:0;ls" +:+ one_char PyStr.CR +:+ PyStr.newline
    +:+ ": 3:0;git  commit -m a" +:+ PyStr.newline
    +:+ ": 4:0;ls " +:+ PyStr.newline
    +:+ ": 5:0;echo " +:+ one_char PyStr.backslash +:+ PyStr.newline
    +:+ "continued" in
  let cfg := new_cleaner 500 [keep_git_commits] [] in
  exists first second,
    process_history cfg (readlines content) = Ok first
    /\ cleaned_entries first
       = [": 1:0;git commit -m a"%string; ": 2:0;ls"%string]
    /\ duplicates_removed (stats first) = 2
    /\ process_history cfg (readlines (write_cleaned_history first))
       = Ok second
    /\ duplicates_removed (stats second) = 0
    /\ cleaned_entries second = cleaned_entries first.
Proof.
  intros content cfg.
  assert (H1 : exists first,
             process_history cfg (readlines content) = Ok first
             /\ cleaned_entries first
                = [": 1:0;git commit -m a"%string; ": 2:0;ls"%string]
             /\ duplicates_removed (stats first) = 2).
  { eexists. split; [reflexivity|]. split; reflexivity. }
  destruct H1 as (first & H1 & Hc & Hd).
  destruct (second_pass_removes_no_duplicate 500 [keep_git_commits] []
              content first H1) as (second & H2 & Hdup & Hclean).
  exists first, second. auto 10.
Defined.

(** * Further properties of the code *)

(** ** What the four textual match types test *)

Module MatchFacts.
Import PyStr.

Lemma startswith_spec (p text : string) :
  startswith p text = true <-> exists rest, text = p +:+ rest.
Proof.
  revert text. induction p as [|a p IH]; intros text; simpl.
  - split; [intros _; now exists text|reflexivity].
  - destruct text as [|b text].
    + split; [discriminate|]. intros (rest & H). discriminate.
    + rewrite andb_true_iff, IH. split.
      * intros (E & rest & ->). apply Ascii.eqb_eq in E. subst b.
        now exists rest.
      * intros (rest & [= -> ->]). split; [apply Ascii.eqb_refl|].
        now exists rest.
Qed.

Lemma startswith_refl (s : string) : startswith s s = true.
Proof.
  apply startswith_spec. exists EmptyString. now rewrite StrFacts.app_nil_r.
Qed.

Lemma contains_spec (p text : string) :
  contains p text = true <-> exists a b, text = a +:+ p +:+ b.
Proof.
  induction text as [|c text IH]; simpl.
  - rewrite orb_false_r, startswith_spec. split.
    + intros (rest & H). now exists EmptyString, rest.
    + intros (a & b & H). destruct a; [now exists b|discriminate].
  - rewrite orb_true_iff, IH, startswith_spec. split.
    + intros [(rest & H)|(a & b & ->)].
      * now exists EmptyString, rest.
      * now exists (String c a), b.
    + intros (a & b & H). destruct a as [|x a].
      * left. now exists b.
      * right. injection H as _ ->. now exists a, b.
Qed.

Lemma endswith_nil (p : string) :
  endswith p EmptyString = String.eqb EmptyString p.
Proof. simpl. apply orb_false_r. Qed.

Lemma endswith_cons (p : string) c (text : string) :
  endswith p (String c text)
  = String.eqb (String c text) p || endswith p text.
Proof. reflexivity. Qed.

Lemma endswith_spec (p text : string) :
  endswith p text = true <-> exists a, text = a +:+ p.
Proof.
  induction text as [|c text IH].
  - rewrite endswith_nil, String.eqb_eq. split.
    + intros <-. now exists EmptyString.
    + intros (a & H). destruct a; [exact H|discriminate].
  - rewrite endswith_cons, orb_true_iff, IH, String.eqb_eq. split.
    + intros [<-|(a & ->)]; [now exists EmptyString|now exists (String c a)].
    + intros (a & H). destruct a as [|x a].
      * now left.
      * right. injection H as _ ->. now exists a.
Qed.

End MatchFacts.

Lemma matches_plain (pat mt : string) (cs : bool) (command : string) :
  matches (plain_rule pat mt cs) command
  = if String.eqb mt "exact"
    then Ok (String.eqb (cased cs command) (cased cs pat))
    else if String.eqb mt "contains"
    then Ok (PyStr.contains (cased cs pat) (cased cs command))
    else if String.eqb mt "starts_with"
    then Ok (PyStr.startswith (cased cs pat) (cased cs command))
    else if String.eqb mt "ends_with"
    then Ok (PyStr.endswith (cased cs pat) (cased cs command))
    else if String.eqb mt "regex" then Raise NoCompiledRegex
    else Raise (UnknownMatchType mt).
Proof. unfold matches, plain_rule, cased. simpl. now destruct cs. Qed.

Lemma matches_plain_iff (pat : string) (cs : bool) (command : string) :
  (matches (plain_rule pat "exact" cs) command = Ok true
   <-> cased cs command = cased cs pat)
  /\ (matches (plain_rule pat "starts_with" cs) command = Ok true
      <-> exists rest, cased cs command = cased cs pat +:+ rest)
  /\ (matches (plain_rule pat "ends_with" cs) command = Ok true
      <-> exists before, cased cs command = before +:+ cased cs pat)
  /\ (matches (plain_rule pat "contains" cs) command = Ok true
      <-> exists before rest,
            cased cs command = before +:+ cased cs pat +:+ rest).
Proof.
  rewrite !matches_plain. simpl.
  rewrite <- String.eqb_eq, <- MatchFacts.startswith_spec,
    <- MatchFacts.endswith_spec, <- MatchFacts.contains_spec.
  repeat split; congruence.
Qed.

(** X1. What the four textual match types decide: the rule matches when
    the command (in lower case unless the rule is case sensitive) is the
    pattern, begins with it, ends with it, or holds it. *)
Theorem match_types_meaning (pat : string) (cs : bool) (command : string) :
  (matches (plain_rule pat "exact" cs) command = Ok true
   <-> cased cs command = cased cs pat)
  /\ (matches (plain_rule pat "starts_with" cs) command = Ok true
      <-> exists rest, cased cs command = cased cs pat +:+ rest)
  /\ (matches (plain_rule pat "ends_with" cs) command = Ok true
      <-> exists before, cased cs command = before +:+ cased cs pat)
  /\ (matches (plain_rule pat "contains" cs) command = Ok true
      <-> exists before rest,
            cased cs command = before +:+ cased cs pat +:+ rest).
Proof. apply matches_plain_iff. Qed.

(** X2. The match types are ordered: with the same pattern and case
    sensitivity, a command matched as exact is matched as starts_with and
    as ends_with, and a command matched as starts_with or as ends_with is
    matched as contains. *)
Theorem match_types_ordered (pat : string) (cs : bool) (command : string) :
  (matches (plain_rule pat "exact" cs) command = Ok true ->
   matches (plain_rule pat "starts_with" cs) command = Ok true
   /\ matches (plain_rule pat "ends_with" cs) command = Ok true)
  /\ (matches (plain_rule pat "starts_with" cs) command = Ok true ->
      matches (plain_rule pat "contains" cs) command = Ok true)
  /\ (matches (plain_rule pat "ends_with" cs) command = Ok true ->
      matches (plain_rule pat "contains" cs) command = Ok true).
Proof.
  destruct (matches_plain_iff pat cs command) as (He & Hs & Hn & Hc).
  rewrite He, Hs, Hn, Hc. split; [|split].
  - intros ->. split; [exists EmptyString|exists EmptyString];
      [now rewrite StrFacts.app_nil_r|reflexivity].
  - intros (rest & ->). now exists EmptyString, rest.
  - intros (before & ->). exists before, EmptyString.
    now rewrite StrFacts.app_nil_r.
Qed.

Lemma match_types_ordered_witness :
  matches (plain_rule "LS" "exact" false) "ls" = Ok true
  /\ matches (plain_rule "LS" "starts_with" false) "ls" = Ok true
  /\ matches (plain_rule "LS" "ends_with" false) "ls" = Ok true
  /\ matches (plain_rule "LS" "contains" false) "ls" = Ok true.
Proof.
  destruct (match_types_ordered "LS" false "ls") as (He & Hs & _).
  destruct (He eq_refl) as [H1 H2].
  split; [reflexivity|]. split; [exact H1|]. split; [exact H2|].
  exact (Hs H1).
Defined.

Lemma FilterRule_init_plain (re_compile : re_engine) (pat mt : string)
    (cs : bool) :
  String.eqb (PyStr.lower mt) "regex" = false ->
  FilterRule_init re_compile pat mt cs
  = Ok (plain_rule pat (PyStr.lower mt) cs).
Proof. intros H. unfold FilterRule_init. now rewrite H. Qed.

(** ** An empty pattern *)

Lemma empty_pattern_matches (mt : string) (cs : bool) (command : string) :
  mt = "contains"%string \/ mt = "starts_with"%string
  \/ mt = "ends_with"%string ->
  matches (plain_rule EmptyString mt cs) command = Ok true.
Proof.
  assert (E : cased cs EmptyString = EmptyString) by now destruct cs.
  intros [->|[->| ->]]; rewrite matches_plain; simpl; rewrite E; f_equal.
  - apply MatchFacts.contains_spec. now exists EmptyString, (cased cs command).
  - apply MatchFacts.endswith_spec. exists (cased cs command).
    now rewrite StrFacts.app_nil_r.
Qed.

Lemma run_steps_all_allowed (self self' : ZshHistoryCleaner) :
  (forall command, check_allow_rules self command = Ok true) ->
  rtc run_step self self' ->
  cleaned_entries self' = cleaned_entries self
  /\ seen_commands self' = seen_commands self
  /\ valid_entries (stats self') - valid_entries (stats self)
     = allowed_removed (stats self') - allowed_removed (stats self).
Proof.
  intros Hall Hsteps.
  induction Hsteps as [s|s1 s2 s3 H12 _ IH]; [repeat split; lia|].
  pose proof (run_step_same_config _ _ H12) as (_ & _ & Hsame).
  assert (Hall2 : forall command, check_allow_rules s2 command = Ok true).
  { intros command. unfold check_allow_rules. rewrite <- Hsame.
    apply Hall. }
  destruct (IH Hall2) as (Hc & Hs & Hv).
  apply run_step_cases in H12 as [->|(ts & cmd & Hout)].
  - simpl in *. repeat split; try assumption.
  - specialize (Hall cmd).
    destruct Hout; try congruence. simpl in *.
    repeat split; try assumption. lia.
Qed.

(** X3. A force-remove rule with an empty pattern, of type contains,
    starts_with or ends_with, matches every command: when the force-remove
    rules are well formed and hold such a rule, a run keeps nothing, and
    counts every valid entry as removed by a rule. *)
Theorem empty_allow_pattern_removes_everything
    (max_len : Z) (ignore allow : list FilterRule) (mt : string) (cs : bool)
    (lines : list string) (self' : ZshHistoryCleaner) :
  forallb well_formed_rule allow = true ->
  In (plain_rule EmptyString mt cs) allow ->
  mt = "contains"%string \/ mt = "starts_with"%string
  \/ mt = "ends_with"%string ->
  process_history (new_cleaner max_len ignore allow) lines = Ok self' ->
  cleaned_entries self' = []
  /\ final_entries (stats self') = 0
  /\ allowed_removed (stats self') = valid_entries (stats self').
Proof.
  intros Hwf Hin Hmt Hrun.
  apply process_history_run_steps in Hrun as (last & Hsteps & ->).
  apply run_steps_all_allowed in Hsteps as (Hc & _ & Hv).
  - simpl in *. rewrite Hc. simpl. repeat split. lia.
  - intros command. unfold check_allow_rules. simpl.
    destruct (check_rules_well_formed allow command Hwf) as (b & -> & Hb).
    f_equal. apply Hb. exists (plain_rule EmptyString mt cs).
    split; [exact Hin|]. now apply empty_pattern_matches.
Qed.

Lemma empty_allow_pattern_removes_everything_witness :
  let lines := [": 1:0;ls" +:+ PyStr.newline;
                ": 2:0;git commit -m x" +:+ PyStr.newline] in
  let allow := [plain_rule "rm " "starts_with" false;
                plain_rule EmptyString "contains" false] in
  exists self',
    process_history (new_cleaner 500 [keep_git_commits] allow) lines
    = Ok self'
    /\ cleaned_entries self' = []
    /\ final_entries (stats self') = 0
    /\ allowed_removed (stats self') = valid_entries (stats self').
Proof.
  intros lines allow. eexists. split; [reflexivity|].
  apply (empty_allow_pattern_removes_everything 500 [keep_git_commits] allow
           "contains" false lines).
  - reflexivity.
  - right. left. reflexivity.
  - left. reflexivity.
  - reflexivity.
Defined.

(** ** Loading the rules *)

Lemma load_rules_app (re_compile : re_engine)
    (a b : list (string * string * bool)) :
  load_rules re_compile (a ++ b)
  = load_rules re_compile a ++ load_rules re_compile b.
Proof.
  induction a as [|[[pat mt] cs] a IH]; simpl; [reflexivity|].
  destruct (FilterRule_init re_compile pat mt cs); simpl; now rewrite IH.
Qed.

(** X4. A rule of type regex whose pattern the regex library refuses makes
    the constructor raise the invalid-pattern error; [load_config] drops
    that rule and loads the rules before and after it, in order. *)
Theorem invalid_regex_rule_skipped
    (re_compile : re_engine) (before after : list (string * string * bool))
    (pat mt : string) (cs : bool) :
  String.eqb (PyStr.lower mt) "regex" = true ->
  re_compile pat (negb cs) = None ->
  FilterRule_init re_compile pat mt cs = Raise (InvalidRegexPattern pat)
  /\ load_rules re_compile (before ++ (pat, mt, cs) :: after)
     = load_rules re_compile before ++ load_rules re_compile after.
Proof.
  intros Hmt Hre.
  assert (E : FilterRule_init re_compile pat mt cs
              = Raise (InvalidRegexPattern pat)).
  { unfold FilterRule_init. now rewrite Hmt, Hre. }
  split; [exact E|]. rewrite load_rules_app. simpl. now rewrite E.
Qed.

Lemma invalid_regex_rule_skipped_witness :
  FilterRule_init no_regex "(" "Regex" false = Raise (InvalidRegexPattern "(")
  /\ load_rules no_regex
       ([("ls"%string, "exact"%string, true)]
        ++ ("("%string, "Regex"%string, false)
        :: [("rm "%string, "starts_with"%string, false)])
     = load_rules no_regex [("ls"%string, "exact"%string, true)]
       ++ load_rules no_regex [("rm "%string, "starts_with"%string, false)].
Proof.
  apply (invalid_regex_rule_skipped no_regex
           [("ls"%string, "exact"%string, true)]
           [("rm "%string, "starts_with"%string, false)] "(" "Regex" false);
    reflexivity.
Defined.




(** ** The rule loops *)

(** X6. Over well-formed rules the order of the rules does not matter:
    the loop of [check_ignore_rules] and [check_allow_rules] gives the same
    answer on a list of rules and on any rearrangement of it. *)
Theorem check_rules_order_irrelevant
    (rules rules' : list FilterRule) (command : string) :
  forallb well_formed_rule rules = true ->
  rules ≡ₚ rules' ->
  check_rules rules' command = check_rules rules command.
Proof.
  intros Hwf Hperm.
  assert (Hwf' : forallb well_formed_rule rules' = true).
  { apply forallb_forall. intros r Hr.
    apply (proj1 (forallb_forall _ _) Hwf).
    now apply (Permutation_in r (Permutation_sym Hperm)). }
  destruct (check_rules_well_formed rules command Hwf) as (b & -> & Hb).
  destruct (check_rules_well_formed rules' command Hwf') as (b' & -> & Hb').
  f_equal. apply eq_true_iff_eq. rewrite Hb, Hb'. split.
  - intros (r & Hin & Hm). exists r. split; [|exact Hm].
    now apply (Permutation_in r (Permutation_sym Hperm)).
  - intros (r & Hin & Hm). exists r. split; [|exact Hm].
    now apply (Permutation_in r Hperm).
Qed.

Lemma check_rules_order_irrelevant_witness :
  check_rules [plain_rule "commit" "contains" false; keep_git_commits]
              "git commit -m x"
  = check_rules [keep_git_commits; plain_rule "commit" "contains" false]
                "git commit -m x".
Proof.
  apply (check_rules_order_irrelevant
           [keep_git_commits; plain_rule "commit" "contains" false]
           [plain_rule "commit" "contains" false; keep_git_commits]).
  - reflexivity.
  - apply Permutation_swap.
Defined.

(** ** The standard filters *)

Module StripFacts.
Import PyStr.

Lemma rstrip_by_idem p (s : string) :
  rstrip_by p (rstrip_by p s) = rstrip_by p s.
Proof.
  induction s as [|c s IH]; simpl; [reflexivity|].
  destruct (is_empty (rstrip_by p s) && p c) eqn:E; [reflexivity|].
  simpl. now rewrite IH, E.
Qed.

Lemma rstrip_by_head p c (s : string) :
  p c = false ->
  rstrip_by p (String c s) = String c (rstrip_by p s).
Proof. intros H. simpl. now rewrite H, andb_false_r. Qed.

Lemma lstrip_by_head p (s : string) :
  lstrip_by p s = EmptyString
  \/ exists c rest, lstrip_by p s = String c rest /\ p c = false.
Proof.
  induction s as [|c s IH]; simpl; [now left|].
  destruct (p c) eqn:E; [exact IH|]. right. now exists c, s.
Qed.

Lemma strip_idem (s : string) : strip (strip s) = strip s.
Proof.
  unfold strip.
  destruct (lstrip_by_head isspace s) as [->|(c & rest & -> & Hc)];
    [reflexivity|].
  rewrite (rstrip_by_head _ _ _ Hc). simpl. rewrite Hc.
  rewrite <- (rstrip_by_head _ _ _ Hc). apply rstrip_by_idem.
Qed.

Lemma lstrip_by_all p (w s : string) :
  all p w = true -> lstrip_by p (w +:+ s) = lstrip_by p s.
Proof.
  induction w as [|c w IH]; simpl; [reflexivity|].
  intros H. apply andb_true_iff in H as [Hc Hw]. now rewrite Hc, IH.
Qed.

(** White space around a command is not seen by [strip]. *)
Lemma strip_surrounded (before after s : string) :
  all isspace before = true -> all isspace after = true ->
  strip (before +:+ s +:+ after) = strip s.
Proof.
  intros Hb Ha. unfold strip. rewrite (lstrip_by_all _ _ _ Hb).
  destruct (lstrip_by_head isspace s) as [E|(c & rest & E & Hc)].
  - assert (Hs : all isspace s = true).
    { clear -E. induction s as [|c s IH]; simpl in *; [reflexivity|].
      destruct (isspace c); [now apply IH|discriminate]. }
    rewrite E. rewrite <- (StrFacts.app_nil_r (s +:+ after)).
    rewrite lstrip_by_all; [reflexivity|].
    now rewrite StrFacts.all_app, Hs, Ha.
  - assert (E' : lstrip_by isspace (s +:+ after)
                 = lstrip_by isspace s +:+ after).
    { clear -E Hc. revert E. induction s as [|x s IH]; simpl; [discriminate|].
      destruct (isspace x) eqn:Hx; [exact IH|reflexivity]. }
    rewrite E'. now apply LineFacts.rstrip_by_drop.
Qed.

End StripFacts.

(** X7. The standard filters look at the trimmed command only: white space
    before and after a command never changes the verdict of
    [is_command_worth_keeping] nor its reason. *)
Theorem worth_keeping_ignores_surrounding_space
    (self : ZshHistoryCleaner) (before after command : string) :
  PyStr.all PyStr.isspace before = true ->
  PyStr.all PyStr.isspace after = true ->
  is_command_worth_keeping self (before +:+ command +:+ after)
  = is_command_worth_keeping self command.
Proof.
  intros Hb Ha. unfold is_command_worth_keeping.
  now rewrite (StripFacts.strip_surrounded _ _ _ Hb Ha).
Qed.

Lemma worth_keeping_ignores_surrounding_space_witness :
  is_command_worth_keeping (new_cleaner 2 [keep_git_commits] [])
    ("  " +:+ "ls" +:+ " " +:+ PyStr.newline)
  = is_command_worth_keeping (new_cleaner 2 [keep_git_commits] []) "ls".
Proof.
  apply (worth_keeping_ignores_surrounding_space
           (new_cleaner 2 [keep_git_commits] []) "  "
           (" " +:+ PyStr.newline) "ls"); reflexivity.
Defined.

Module NoiseFacts.
Import PyStr Regex.

Lemma run_at_le p (n m : nat) (s : string) :
  (m <= n)%nat -> run_at p n s = true -> run_at p m s = true.
Proof.
  revert m s. induction n as [|n IH]; intros [|m] s Hle; simpl;
    try reflexivity; try lia.
  destruct s as [|c s]; [discriminate|].
  intros H. apply andb_true_iff in H as [Hc Hs]. rewrite Hc. simpl.
  apply (IH m); [lia|exact Hs].
Qed.

Lemma run_at_repeat c (n : nat) (rest : string) :
  run_at (Ascii.eqb c) n (repeat_char c n +:+ rest) = true.
Proof.
  induction n as [|n IH]; simpl; [reflexivity|].
  now rewrite Ascii.eqb_refl, IH.
Qed.

Lemma search_repeated_app (before s : string) :
  search_repeated s = true -> search_repeated (before +:+ s) = true.
Proof.
  intros H. induction before as [|c before IH]; simpl; [exact H|].
  rewrite IH. apply orb_true_r.
Qed.

(** A run of one character, at least 16 long, is found by the pattern for
    a repeated character. *)
Lemma search_run_repeated ch (n : nat) (s : string) :
  ch <> LF -> (16 <= n)%nat ->
  search_run (Ascii.eqb ch) n s = true -> search_repeated s = true.
Proof.
  intros Hch Hn. induction s as [|c s IH].
  - destruct n; [lia|]. simpl. discriminate.
  - destruct n as [|n]; [lia|].
    change (search_run (Ascii.eqb ch) (S n) (String c s))
      with (Ascii.eqb ch c && run_at (Ascii.eqb ch) n s
            || search_run (Ascii.eqb ch) (S n) s).
    change (search_repeated (String c s))
      with (isdot c && run_at (Ascii.eqb c) 15 s || search_repeated s).
    intros H. apply orb_true_iff in H as [H|H].
    + apply andb_true_iff in H as [Hc Hs]. apply Ascii.eqb_eq in Hc.
      subst c. rewrite (run_at_le _ n 15 s); [|lia|exact Hs].
      unfold isdot. apply Ascii.eqb_neq in Hch. now rewrite Hch.
    + rewrite (IH H). apply orb_true_r.
Qed.

End NoiseFacts.

Lemma noise_three_patterns (command : string) :
  existsb (fun search => search command) Regex.repetitive_patterns
  = Regex.search_brackets command
    || Regex.search_run PyStr.isspace 10 command
    || Regex.search_repeated command.
Proof.
  unfold Regex.repetitive_patterns. simpl existsb.
  assert (Hd : Regex.search_run (Ascii.eqb "-") 20 command = true ->
               Regex.search_repeated command = true)
    by (apply NoiseFacts.search_run_repeated; [discriminate|lia]).
  assert (He : Regex.search_run (Ascii.eqb "=") 20 command = true ->
               Regex.search_repeated command = true)
    by (apply NoiseFacts.search_run_repeated; [discriminate|lia]).
  destruct (Regex.search_run (Ascii.eqb "-") 20 command),
    (Regex.search_run (Ascii.eqb "=") 20 command);
    try rewrite (Hd eq_refl); try rewrite (He eq_refl); simpl;
    rewrite ?orb_true_r, ?orb_false_r, ?orb_assoc; reflexivity.
Qed.

(** X8. Among the five noise patterns, the ones for 20 dashes and for 20
    equals signs never decide: the pattern for a repeated character finds
    every command that they find. The noise verdict is that of the other
    three patterns. *)
Theorem noise_verdict_three_patterns (command : string) :
  existsb (fun search => search command) Regex.repetitive_patterns
  = Regex.search_brackets command
    || Regex.search_run PyStr.isspace 10 command
    || Regex.search_repeated command.
Proof. apply noise_three_patterns. Qed.

Lemma sixteen_equal_characters_found (ch : ascii) (before rest : string) :
  ch <> PyStr.LF ->
  existsb (fun search => search (before +:+ repeat_char ch 16 +:+ rest))
          Regex.repetitive_patterns = true.
Proof.
  intros Hch. rewrite noise_three_patterns.
  rewrite (NoiseFacts.search_repeated_app before).
  - apply orb_true_r.
  - change (repeat_char ch 16) with (String ch (repeat_char ch 15)).
    change (Regex.search_repeated (String ch (repeat_char ch 15) +:+ rest))
      with (PyStr.isdot ch
            && Regex.run_at (Ascii.eqb ch) 15 (repeat_char ch 15 +:+ rest)
            || Regex.search_repeated (repeat_char ch 15 +:+ rest)).
    rewrite NoiseFacts.run_at_repeat. unfold PyStr.isdot.
    apply Ascii.eqb_neq in Hch. now rewrite Hch.
Qed.

(** X9. Sixteen equal characters in a row are noise, also dashes and
    equals signs: a command whose trimmed form holds such a run (of a
    character other than the line feed), matches no rule and is not too
    long is refused by the standard filters as a repetitive pattern. *)
Theorem repeated_character_is_noise
    (self : ZshHistoryCleaner) (command : string) (ch : ascii)
    (before rest : string) :
  ch <> PyStr.LF ->
  PyStr.strip command = before +:+ repeat_char ch 16 +:+ rest ->
  check_allow_rules self (PyStr.strip command) = Ok false ->
  check_ignore_rules self (PyStr.strip command) = Ok false ->
  PyStr.len (PyStr.strip command) <= max_command_length self ->
  is_command_worth_keeping self command
  = Ok (false, "repetitive_pattern"%string).
Proof.
  intros Hch Hs Ha Hi Hlen. unfold is_command_worth_keeping.
  assert (Hne : PyStr.is_empty (PyStr.strip command) = false).
  { rewrite Hs. destruct before; reflexivity. }
  rewrite Hne, Ha. unfold mbind, result_bind. cbv beta iota.
  rewrite Hi. cbv beta iota.
  destruct (Z.gtb_spec (PyStr.len (PyStr.strip command))
              (max_command_length self)); [lia|].
  pose proof (sixteen_equal_characters_found ch before rest Hch) as Hn.
  rewrite <- Hs in Hn. now rewrite Hn.
Qed.

Lemma repeated_character_is_noise_witness :
  is_command_worth_keeping (new_cleaner 500 [keep_git_commits] [])
    " echo ----------------"
  = Ok (false, "repetitive_pattern"%string).
Proof.
  apply (repeated_character_is_noise
           (new_cleaner 500 [keep_git_commits] []) " echo ----------------"
           "-" "echo " EmptyString).
  - discriminate.
  - reflexivity.
  - reflexivity.
  - reflexivity.
  - vm_compute. discriminate.
Defined.

(** ** Normalisation *)

Module NormFacts.
Import PyStr Regex.

Lemma sub_spaces_from_plain (inside : bool) (s : string) :
  plain_spaces (sub_spaces_from inside s) = true.
Proof.
  unfold plain_spaces. revert inside.
  induction s as [|c s IH]; intros inside; simpl; [reflexivity|].
  destruct (isspace c) eqn:Hc.
  - destruct inside; simpl; now rewrite ?IH.
  - simpl. now rewrite Hc, IH.
Qed.

Lemma span_fst_all (P q : ascii -> bool) (s : string) :
  all P s = true -> all P (fst (span q s)) = true.
Proof.
  induction s as [|c s IH]; simpl; [reflexivity|].
  intros H. apply andb_true_iff in H as [Hc Hs].
  destruct (q c); [|reflexivity].
  destruct (span q s) as [a b]. simpl in *. now rewrite Hc, IH.
Qed.

Lemma plain_space_run (w : string) :
  plain_spaces w = true -> all isspace w = true -> all isdot w = true.
Proof.
  unfold plain_spaces. induction w as [|c w IH]; simpl; [reflexivity|].
  intros Hp Hw. apply andb_true_iff in Hp as [Hc Hp].
  apply andb_true_iff in Hw as [Hs Hw]. rewrite (IH Hp Hw), andb_true_r.
  rewrite Hs in Hc. simpl in Hc. apply Ascii.eqb_eq in Hc. now subst c.
Qed.

(** On a text whose only white space is the plain space, the removal of
    line continuations finds nothing. *)
Lemma sub_continuations_plain (s : string) :
  plain_spaces s = true -> sub_continuations s = s.
Proof.
  unfold sub_continuations. induction s as [|c s IH]; simpl;
    [reflexivity|].
  intros Hp. unfold plain_spaces in Hp. simpl in Hp.
  apply andb_true_iff in Hp as [_ Hp].
  assert (Hw : all isdot (fst (span isspace s)) = true).
  { apply plain_space_run.
    - now apply span_fst_all.
    - destruct (span isspace s) as [a b] eqn:E.
      now apply StrFacts.span_spec in E as [_ Ha]. }
  rewrite Hw, andb_false_r. f_equal. now apply IH.
Qed.

Lemma sub_spaces_from_app (inside : bool) (a b : string) :
  sub_spaces_from inside (a +:+ b)
  = sub_spaces_from inside a +:+ sub_spaces_from (ends_in_space inside a) b.
Proof.
  revert inside. induction a as [|c a IH]; intros inside; simpl;
    [reflexivity|].
  destruct (isspace c); [destruct inside|]; simpl; now rewrite IH.
Qed.

Lemma sub_spaces_from_run (inside : bool) (w rest : string) :
  all isspace w = true -> w <> EmptyString ->
  sub_spaces_from inside (w +:+ rest)
  = (if inside then EmptyString else String space EmptyString)
    +:+ sub_spaces_from true rest.
Proof.
  intros Hw Hne. destruct w as [|c w]; [congruence|]. clear Hne.
  simpl in Hw. apply andb_true_iff in Hw as [Hc Hw]. simpl. rewrite Hc.
  assert (E : sub_spaces_from true (w +:+ rest) = sub_spaces_from true rest).
  { clear c Hc. induction w as [|c w IH]; simpl in *; [reflexivity|].
    apply andb_true_iff in Hw as [Hc Hw]. now rewrite Hc, IH. }
  destruct inside; simpl; now rewrite E.
Qed.

(** The run of white space between two parts of a text does not show in
    the text with its white space collapsed. *)
Lemma sub_spaces_run_irrelevant (a w1 w2 b : string) :
  all isspace w1 = true -> w1 <> EmptyString ->
  all isspace w2 = true -> w2 <> EmptyString ->
  sub_spaces (a +:+ w1 +:+ b) = sub_spaces (a +:+ w2 +:+ b).
Proof.
  intros H1 N1 H2 N2. unfold sub_spaces.
  rewrite (sub_spaces_from_app false a (w1 +:+ b)).
  rewrite (sub_spaces_from_app false a (w2 +:+ b)).
  now rewrite !sub_spaces_from_run.
Qed.

Lemma lstrip_by_empty p (s : string) :
  lstrip_by p s = EmptyString <-> all p s = true.
Proof.
  induction s as [|c s IH]; simpl; [tauto|].
  destruct (p c); simpl; [exact IH|]. split; discriminate.
Qed.

Lemma rstrip_by_empty p (s : string) :
  rstrip_by p s = EmptyString <-> all p s = true.
Proof.
  induction s as [|c s IH]; simpl; [tauto|].
  destruct (rstrip_by p s) as [|x r] eqn:E; simpl.
  - destruct (p c); simpl; [|split; discriminate].
    split; intros _; [now apply IH|reflexivity].
  - split; [discriminate|]. intros H. apply andb_true_iff in H as [_ H].
    apply IH in H. discriminate.
Qed.

Lemma lstrip_by_app p (a rest : string) :
  lstrip_by p a <> EmptyString ->
  lstrip_by p (a +:+ rest) = lstrip_by p a +:+ rest.
Proof.
  induction a as [|c a IH]; simpl; [congruence|].
  destruct (p c); [exact IH|reflexivity].
Qed.

Lemma rstrip_by_app p (a b : string) :
  rstrip_by p b <> EmptyString ->
  rstrip_by p (a +:+ b) = a +:+ rstrip_by p b.
Proof.
  intros Hb. induction a as [|c a IH]; simpl; [reflexivity|].
  rewrite IH. destruct (a +:+ rstrip_by p b) eqn:E; [|reflexivity].
  destruct a; simpl in E; [congruence|discriminate].
Qed.

End NormFacts.

Lemma sub_continuations_idle (command : string) :
  Regex.sub_continuations (Regex.sub_spaces (PyStr.strip command))
  = Regex.sub_spaces (PyStr.strip command).
Proof.
  apply NormFacts.sub_continuations_plain, NormFacts.sub_spaces_from_plain.
Qed.

(** X10. The second step of [normalize_command], the removal of backslash
    line continuations, never changes its argument: the first step has
    replaced every line feed by a space. The result is the trimmed command
    with its white space collapsed and its trailing backslash removed. *)
Theorem normalize_continuation_step_idle (command : string) :
  Regex.sub_continuations (Regex.sub_spaces (PyStr.strip command))
  = Regex.sub_spaces (PyStr.strip command)
  /\ normalize_command command
     = Regex.sub_trailing_backslash (Regex.sub_spaces (PyStr.strip command)).
Proof.
  split; [apply sub_continuations_idle|].
  unfold normalize_command. now rewrite sub_continuations_idle.
Qed.

Lemma spaced_sub_spaces (inside : bool) (s : string) :
  spaced_from inside (Regex.sub_spaces_from inside s) = true.
Proof.
  revert inside. induction s as [|c s IH]; intros inside; simpl;
    [reflexivity|].
  destruct (PyStr.isspace c) eqn:Hc.
  - destruct inside; [apply IH|]. simpl. apply IH.
  - simpl. rewrite Hc. apply IH.
Qed.

Lemma spaced_sub_trailing_backslash (after_space : bool) (s : string) :
  spaced_from after_space s = true ->
  spaced_from after_space (Regex.sub_trailing_backslash s) = true.
Proof.
  revert after_space. induction s as [|c s IH]; intros after_space; simpl;
    [reflexivity|].
  destruct (Ascii.eqb c PyStr.backslash && PyStr.all PyStr.isspace s);
    [reflexivity|].
  simpl. destruct (PyStr.isspace c).
  - intros H. apply andb_true_iff in H as [H1 H2]. rewrite H1. simpl.
    now apply IH.
  - apply IH.
Qed.

(** X11. In a normalised command every white space is a single plain
    space between two other characters or at the end: no tab, no line feed,
    no two spaces in a row, no space at the start. *)
Theorem normalized_command_single_spaced (command : string) :
  single_spaced (normalize_command command) = true.
Proof.
  unfold normalize_command. rewrite sub_continuations_idle.
  unfold single_spaced. apply spaced_sub_trailing_backslash.
  unfold PyStr.strip, Regex.sub_spaces.
  destruct (StripFacts.lstrip_by_head PyStr.isspace command)
    as [->|(c & rest & -> & Hc)]; [reflexivity|].
  rewrite (StripFacts.rstrip_by_head _ _ _ Hc). simpl. rewrite Hc.
  simpl. rewrite Hc. apply spaced_sub_spaces.
Qed.

Lemma collapsed_run_irrelevant (a w1 w2 b : string) :
  PyStr.all PyStr.isspace w1 = true -> w1 <> EmptyString ->
  PyStr.all PyStr.isspace w2 = true -> w2 <> EmptyString ->
  Regex.sub_spaces (PyStr.strip (a +:+ w1 +:+ b))
  = Regex.sub_spaces (PyStr.strip (a +:+ w2 +:+ b)).
Proof.
  intros H1 N1 H2 N2.
  destruct (PyStr.lstrip_by PyStr.isspace a) as [|x a'] eqn:Ea.
  - (* nothing but white space before the run *)
    apply NormFacts.lstrip_by_empty in Ea.
    assert (E : forall w, PyStr.all PyStr.isspace w = true ->
                PyStr.strip (a +:+ w +:+ b) = PyStr.strip b).
    { intros w Hw. rewrite <- (StrFacts.app_nil_r b) at 1.
      rewrite <- !StrFacts.app_assoc, StrFacts.app_assoc.
      apply StripFacts.strip_surrounded; [|reflexivity].
      now rewrite StrFacts.all_app, Ea, Hw. }
    now rewrite (E w1 H1), (E w2 H2).
  - destruct (PyStr.rstrip_by PyStr.isspace b) as [|y b'] eqn:Eb.
    + (* nothing but white space after the run *)
      apply NormFacts.rstrip_by_empty in Eb.
      assert (E : forall w, PyStr.all PyStr.isspace w = true ->
                  PyStr.strip (a +:+ w +:+ b) = PyStr.strip a).
      { intros w Hw.
        apply (StripFacts.strip_surrounded EmptyString (w +:+ b) a);
          [reflexivity|]. now rewrite StrFacts.all_app, Hw, Eb. }
      now rewrite (E w1 H1), (E w2 H2).
    + (* the run stands between two words *)
      assert (E : forall w, w <> EmptyString ->
                  PyStr.strip (a +:+ w +:+ b)
                  = String x a' +:+ w +:+ String y b').
      { intros w Hw. unfold PyStr.strip.
        rewrite NormFacts.lstrip_by_app by (rewrite Ea; discriminate).
        rewrite Ea.
        assert (Ew : PyStr.rstrip_by PyStr.isspace (w +:+ b)
                     = w +:+ String y b').
        { rewrite NormFacts.rstrip_by_app by (rewrite Eb; discriminate).
          now rewrite Eb. }
        rewrite NormFacts.rstrip_by_app; rewrite Ew; [reflexivity|].
        destruct w; [congruence|discriminate]. }
      rewrite (E w1 N1), (E w2 N2).
      now apply NormFacts.sub_spaces_run_irrelevant.
Qed.

(** X12. The duplicate key does not see how much white space, nor which,
    separates two parts of a command: replacing a run of white space by
    another one gives the same normalised command. *)
Theorem normalize_ignores_inner_white_space (a w1 w2 b : string) :
  PyStr.all PyStr.isspace w1 = true -> w1 <> EmptyString ->
  PyStr.all PyStr.isspace w2 = true -> w2 <> EmptyString ->
  normalize_command (a +:+ w1 +:+ b) = normalize_command (a +:+ w2 +:+ b).
Proof.
  intros H1 N1 H2 N2. unfold normalize_command.
  now rewrite (collapsed_run_irrelevant a w1 w2 b H1 N1 H2 N2).
Qed.

Lemma normalize_ignores_inner_white_space_witness :
  normalize_command ("git" +:+ "   " +:+ "status")
  = normalize_command ("git" +:+ " " +:+ "status").
Proof.
  apply (normalize_ignores_inner_white_space "git" "   " " " "status");
    try reflexivity; discriminate.
Defined.

(** X13. The duplicate key does not see the white space around a
    command. *)
Theorem normalize_ignores_surrounding_white_space
    (before after command : string) :
  PyStr.all PyStr.isspace before = true ->
  PyStr.all PyStr.isspace after = true ->
  normalize_command (before +:+ command +:+ after)
  = normalize_command command.
Proof.
  intros Hb Ha. unfold normalize_command.
  now rewrite (StripFacts.strip_surrounded _ _ _ Hb Ha).
Qed.

Lemma normalize_ignores_surrounding_white_space_witness :
  normalize_command ("  " +:+ "git status" +:+ " ")
  = normalize_command "git status".
Proof.
  apply (normalize_ignores_surrounding_white_space "  " " " "git status");
    reflexivity.
Defined.

(** ** Runs *)

Lemma history_loop_orphans (lines : list string) :
  Forall (fun l => is_entry_start (PyStr.rstrip_newlines l) = false) lines ->
  forall self,
  exists self',
    history_loop lines (self, EmptyString) = Ok (self', EmptyString)
    /\ cleaned_entries self' = cleaned_entries self
    /\ valid_entries (stats self') = valid_entries (stats self)
    /\ total_lines (stats self') = total_lines (stats self)
    /\ malformed_removed (stats self')
       = malformed_removed (stats self) + Z.of_nat (length lines).
Proof.
  induction 1 as [|line rest Hline _ IH]; intros self.
  - exists self. simpl. repeat split; lia.
  - simpl. unfold history_step at 1. unfold is_entry_start in Hline.
    rewrite Hline. simpl.
    destruct (IH (set_stats incr_malformed_removed self))
      as (s & -> & Hc & Hv & Ht & Hm).
    exists s. simpl in *. repeat split; try assumption. lia.
Qed.

(** X14. Lines that come before any line starting an entry are orphans:
    on a history none of whose lines starts an entry (the empty history
    among them) the run completes whatever the rules, keeps nothing, finds
    no valid entry and counts every line as malformed. *)
Theorem orphaned_lines_counted_malformed
    (max_len : Z) (ignore allow : list FilterRule) (lines : list string) :
  Forall (fun l => is_entry_start (PyStr.rstrip_newlines l) = false) lines ->
  exists self',
    process_history (new_cleaner max_len ignore allow) lines = Ok self'
    /\ cleaned_entries self' = []
    /\ valid_entries (stats self') = 0
    /\ final_entries (stats self') = 0
    /\ malformed_removed (stats self') = Z.of_nat (length lines)
    /\ total_lines (stats self') = Z.of_nat (length lines).
Proof.
  intros H. unfold process_history.
  destruct (history_loop_orphans lines H
              (set_stats (set_total_lines (Z.of_nat (length lines)))
                 (new_cleaner max_len ignore allow)))
    as (s & -> & Hc & Hv & Ht & Hm).
  simpl. eexists. split; [reflexivity|]. simpl in *.
  rewrite Hc. simpl. repeat split; try assumption; lia.
Qed.

Lemma orphaned_lines_counted_malformed_witness :
  exists self',
    process_history
      (new_cleaner 500 [] [plain_rule "x" "glob" false])
      ["ls -l" +:+ PyStr.newline; ":1:0;ls" +:+ PyStr.newline;
       ": no semicolon"%string] = Ok self'
    /\ cleaned_entries self' = []
    /\ valid_entries (stats self') = 0
    /\ final_entries (stats self') = 0
    /\ malformed_removed (stats self') = 3
    /\ total_lines (stats self') = 3.
Proof.
  apply (orphaned_lines_counted_malformed 500 []
           [plain_rule "x" "glob" false]
           ["ls -l" +:+ PyStr.newline; ":1:0;ls" +:+ PyStr.newline;
            ": no semicolon"%string]).
  repeat constructor.
Defined.

Lemma process_entry_counts (self self' : ZshHistoryCleaner) (entry : string) :
  _process_entry self entry = Ok self' ->
  valid_entries (stats self') + malformed_removed (stats self')
  = valid_entries (stats self) + malformed_removed (stats self) + 1.
Proof.
  intros Hrun.
  destruct (parse_history_entry entry) as [[ts cmd]|] eqn:Hp.
  - apply (process_entry_outcome _ _ _ _ _ Hp) in Hrun.
    destruct Hrun; simpl; lia.
  - rewrite (process_entry_malformed _ _ Hp) in Hrun.
    injection Hrun as <-. simpl. lia.
Qed.

Lemma history_step_counts
    (self self' : ZshHistoryCleaner) (cur cur' line : string) :
  history_step (self, cur) line = Ok (self', cur') ->
  valid_entries (stats self') + malformed_removed (stats self')
  + pending cur'
  <= valid_entries (stats self) + malformed_removed (stats self)
     + pending cur + 1.
Proof.
  unfold history_step, pending.
  destruct (PyStr.startswith ": " (PyStr.rstrip_newlines line)
            && PyStr.contains ":" (PyStr.rstrip_newlines line)
            && PyStr.contains ";" (PyStr.rstrip_newlines line)) eqn:Hstart.
  - destruct (PyStr.is_empty cur); simpl.
    + intros [= <- <-]. destruct (PyStr.is_empty _); lia.
    + destruct (_process_entry self cur) as [s|] eqn:Hp; simpl;
        [|discriminate].
      intros [= <- <-]. apply process_entry_counts in Hp.
      destruct (PyStr.is_empty _); lia.
  - destruct (PyStr.is_empty cur) eqn:Hcur; simpl.
    + intros [= <- <-]. rewrite Hcur. simpl. lia.
    + intros [= <- <-]. destruct cur; [discriminate|]. simpl. lia.
Qed.

Lemma history_loop_counts (lines : list string) :
  forall (self self' : ZshHistoryCleaner) (cur cur' : string),
    history_loop lines (self, cur) = Ok (self', cur') ->
    valid_entries (stats self') + malformed_removed (stats self')
    + pending cur'
    <= valid_entries (stats self) + malformed_removed (stats self)
       + pending cur + Z.of_nat (length lines).
Proof.
  induction lines as [|line rest IH]; simpl; intros self self' cur cur'.
  - intros [= <- <-]. lia.
  - destruct (history_step (self, cur) line) as [[s c]|] eqn:Hs; simpl;
      [|discriminate].
    intros Hrest. apply IH in Hrest. apply history_step_counts in Hs. lia.
Qed.

Lemma run_step_sane (self self' : ZshHistoryCleaner) :
  run_step self self' -> sane_counters self -> sane_counters self'.
Proof.
  intros H. apply run_step_cases in H as [->|(ts & cmd & Hout)];
    unfold sane_counters.
  - simpl. lia.
  - destruct Hout; simpl; rewrite ?length_app; simpl; lia.
Qed.

Lemma run_steps_sane (self self' : ZshHistoryCleaner) :
  rtc run_step self self' -> sane_counters self -> sane_counters self'.
Proof.
  induction 1 as [s|s1 s2 s3 H12 _ IH]; [auto|].
  intros Hs. apply IH. now apply run_step_sane with s1.
Qed.

Lemma run_steps_total_lines (self self' : ZshHistoryCleaner) :
  rtc run_step self self' ->
  total_lines (stats self') = total_lines (stats self).
Proof.
  induction 1 as [|a b c Hab _ IH]; [reflexivity|].
  rewrite IH. apply run_step_cases in Hab as [->|(ts & cmd & Hout)];
    [reflexivity|]. now destruct Hout.
Qed.

(** A completed run, with the count of the entries it has met. *)
Lemma process_history_counts
    (self self' : ZshHistoryCleaner) (lines : list string) :
  process_history self lines = Ok self' ->
  exists last,
    rtc run_step
      (set_stats (set_total_lines (Z.of_nat (length lines))) self) last
    /\ self' = set_stats
                 (set_final_entries
                    (Z.of_nat (length (cleaned_entries last)))) last
    /\ valid_entries (stats last) + malformed_removed (stats last)
       <= valid_entries (stats self) + malformed_removed (stats self)
          + Z.of_nat (length lines).
Proof.
  unfold process_history.
  destruct (history_loop lines _) as [[s cur]|] eqn:Hloop; simpl;
    [|discriminate].
  pose proof (history_loop_run_steps _ _ _ _ _ Hloop) as Hsteps.
  apply history_loop_counts in Hloop. unfold pending in Hloop.
  simpl in Hloop.
  destruct (PyStr.is_empty cur); simpl.
  - intros [= <-]. exists s. split; [exact Hsteps|]. split; [reflexivity|].
    lia.
  - destruct (_process_entry s cur) as [s'|] eqn:Hp; simpl; [|discriminate].
    intros [= <-]. exists s'. split; [|split; [reflexivity|]].
    + eapply rtc_r; [exact Hsteps|]. now apply step_entry with cur.
    + apply process_entry_counts in Hp. lia.
Qed.

(** X15. At the end of a completed run, [total_lines] is the number of
    lines read; the valid entries and the malformed ones together are at
    most as many as the lines; no counter is negative; the entries kept by
    a force-keep rule are among the final entries, which are among the
    valid ones. *)
Theorem counter_bounds
    (max_len : Z) (ignore allow : list FilterRule) (lines : list string)
    (self' : ZshHistoryCleaner) :
  process_history (new_cleaner max_len ignore allow) lines = Ok self' ->
  total_lines (stats self') = Z.of_nat (length lines)
  /\ valid_entries (stats self') + malformed_removed (stats self')
     <= total_lines (stats self')
  /\ 0 <= ignored_kept (stats self') <= final_entries (stats self')
  /\ final_entries (stats self') <= valid_entries (stats self')
  /\ 0 <= malformed_removed (stats self')
  /\ 0 <= allowed_removed (stats self')
  /\ 0 <= too_long_removed (stats self')
  /\ 0 <= pattern_removed (stats self')
  /\ 0 <= duplicates_removed (stats self').
Proof.
  intros Hrun.
  apply process_history_counts in Hrun as (last & Hsteps & -> & Hcount).
  pose proof (run_steps_accounted _ _ Hsteps eq_refl) as Hacc.
  pose proof (run_steps_total_lines _ _ Hsteps) as Htotal.
  assert (Hsane : sane_counters last).
  { apply (run_steps_sane _ _ Hsteps). unfold sane_counters. simpl. lia. }
  unfold sane_counters, accounted in *. simpl in *. lia.
Qed.

Lemma counter_bounds_witness :
  let lines := ["orphan" +:+ PyStr.newline;
                ": 1:0;git commit -m x" +:+ PyStr.newline;
                "second line" +:+ PyStr.newline;
                ": 2:0;ls" +:+ PyStr.newline] in
  exists self',
    process_history (new_cleaner 500 [keep_git_commits] []) lines = Ok self'
    /\ valid_entries (stats self') = 1
    /\ malformed_removed (stats self') = 2
    /\ total_lines (stats self') = Z.of_nat (length lines)
    /\ valid_entries (stats self') + malformed_removed (stats self')
       <= total_lines (stats self').
Proof.
  intros lines. eexists. split; [reflexivity|]. split; [reflexivity|].
  split; [reflexivity|].
  destruct (counter_bounds 500 [keep_git_commits] [] lines _ eq_refl)
    as (Ht & Hle & _).
  split; [exact Ht|exact Hle].
Defined.

(** ** The output and the input *)

Lemma rstrip_by_length p (s : string) :
  (String.length (PyStr.rstrip_by p s) <= String.length s)%nat.
Proof.
  induction s as [|c s IH]; simpl; [lia|].
  destruct (PyStr.is_empty _ && p c); simpl; lia.
Qed.

Lemma length_app_str (a b : string) :
  String.length (a +:+ b) = (String.length a + String.length b)%nat.
Proof. induction a as [|c a IH]; simpl; [reflexivity|]. now rewrite IH. Qed.

(** An entry that parses is its first line, up to one empty continuation
    line. *)
Lemma parsed_entry_is_first_line (first cur ts cmd : string) :
  begins_with_line first cur ->
  parse_history_entry cur = Some (ts, cmd) ->
  format_entry ts cmd = first.
Proof.
  intros [Hstrip Hcur] Hp.
  apply parse_history_entry_shape in Hp as [Hshape Hl].
  apply entry_shape_one_line in Hshape.
  set (P := format_entry ts cmd) in *. clearbody P.
  destruct Hcur as [->|(more & ->)].
  - destruct Hl as [-> | ->]; [reflexivity|exfalso].
    unfold PyStr.rstrip_newlines in Hstrip.
    rewrite LineFacts.rstrip_by_drop in Hstrip by reflexivity.
    pose proof (rstrip_by_length PyStr.is_crlf P) as Hlen.
    rewrite Hstrip, length_app_str in Hlen. simpl in Hlen. lia.
  - destruct Hl as [Hl|Hl].
    + exfalso. rewrite <- Hl, StrFacts.all_app in Hshape. simpl in Hshape.
      now rewrite andb_false_r in Hshape.
    + clear Hstrip. revert first Hl.
      induction P as [|x P IH]; intros first Hl.
      * destruct first as [|y first]; [reflexivity|].
        simpl in Hl. injection Hl as _ Hl. destruct first; discriminate.
      * simpl in Hshape. apply andb_true_iff in Hshape as [Hx Hshape].
        destruct first as [|y first]; simpl in Hl.
        -- injection Hl as <- _. discriminate.
        -- injection Hl as -> Hl. f_equal. now apply IH.
Qed.

Lemma process_entry_output
    (self self' : ZshHistoryCleaner) (first cur : string) :
  begins_with_line first cur ->
  _process_entry self cur = Ok self' ->
  cleaned_entries self' = cleaned_entries self
  \/ cleaned_entries self' = cleaned_entries self ++ [first].
Proof.
  intros Hb Hrun.
  destruct (parse_history_entry cur) as [[ts cmd]|] eqn:Hp.
  - rewrite <- (parsed_entry_is_first_line _ _ _ _ Hb Hp).
    apply (process_entry_outcome _ _ _ _ _ Hp) in Hrun.
    destruct Hrun; simpl; auto.
  - rewrite (process_entry_malformed _ _ Hp) in Hrun.
    injection Hrun as <-. now left.
Qed.

Lemma history_step_output (done : list string)
    (self self' : ZshHistoryCleaner) (cur cur' line : string) :
  output_so_far done self cur ->
  history_step (self, cur) line = Ok (self', cur') ->
  output_so_far (done ++ [line]) self' cur'.
Proof.
  intros Hinv. unfold output_so_far. rewrite map_app. simpl.
  unfold history_step.
  set (l := PyStr.rstrip_newlines line).
  assert (Hl : PyStr.rstrip_newlines l = l)
    by apply StripFacts.rstrip_by_idem.
  destruct (PyStr.startswith ": " l && PyStr.contains ":" l
            && PyStr.contains ";" l) eqn:Hstart.
  - (* the line starts an entry *)
    assert (Hne : l <> EmptyString) by (intros E; now rewrite E in Hstart).
    assert (Hnew : forall s0,
              cleaned_entries s0
              `sublist_of` map PyStr.rstrip_newlines done ->
              exists first,
                l <> EmptyString /\ begins_with_line first l
                /\ cleaned_entries s0 ++ [first]
                   `sublist_of` map PyStr.rstrip_newlines done ++ [l]).
    { intros s0 H0. exists l. split; [exact Hne|]. split.
      - split; [exact Hl|now left].
      - now apply sublist_app. }
    destruct Hinv as [[-> Hc]|(first & Hcur & Hb & Hc)]; simpl.
    + intros [= <- <-]. right. now apply Hnew.
    + apply StrFacts.is_empty_false in Hcur. rewrite Hcur. simpl.
      destruct (_process_entry self cur) as [s|] eqn:Hp; simpl;
        [|discriminate].
      intros [= <- <-]. right. apply Hnew.
      destruct (process_entry_output _ _ _ _ Hb Hp) as [-> | ->];
        [|exact Hc].
      etransitivity; [|exact Hc]. now apply sublist_inserts_r.
  - (* the line continues an entry, or is orphaned *)
    destruct Hinv as [[-> Hc]|(first & Hcur & Hb & Hc)]; simpl.
    + intros [= <- <-]. left. split; [reflexivity|].
      now apply sublist_inserts_r.
    + pose proof Hcur as Hcur'.
      apply StrFacts.is_empty_false in Hcur'. rewrite Hcur'. simpl.
      intros [= <- <-]. right. exists first. split; [|split].
      * destruct cur; [congruence|discriminate].
      * destruct Hb as [Hf [-> |(more & ->)]]; split; try exact Hf; right.
        -- now exists l.
        -- exists (more +:+ PyStr.newline +:+ l).
           now rewrite StrFacts.app_assoc.
      * now apply sublist_inserts_r.
Qed.

Lemma history_loop_output (lines : list string) :
  forall (done : list string) (self self' : ZshHistoryCleaner)
         (cur cur' : string),
    output_so_far done self cur ->
    history_loop lines (self, cur) = Ok (self', cur') ->
    output_so_far (done ++ lines) self' cur'.
Proof.
  induction lines as [|line rest IH]; simpl;
    intros done self self' cur cur' Hinv.
  - intros [= <- <-]. now rewrite app_nil_r.
  - destruct (history_step (self, cur) line) as [[s c]|] eqn:Hs; simpl;
      [|discriminate].
    intros Hrest.
    replace (done ++ line :: rest) with ((done ++ [line]) ++ rest)
      by now rewrite <- app_assoc.
    apply (IH (done ++ [line]) s self' c cur'); [|exact Hrest].
    now apply (history_step_output done self s cur c line).
Qed.

(** X16. A run invents nothing and reorders nothing: the output of a
    completed run is made of lines of the input, stripped of their line
    end, in the order of the input. *)
Theorem output_is_sublist_of_input
    (max_len : Z) (ignore allow : list FilterRule) (lines : list string)
    (self' : ZshHistoryCleaner) :
  process_history (new_cleaner max_len ignore allow) lines = Ok self' ->
  cleaned_entries self' `sublist_of` map PyStr.rstrip_newlines lines.
Proof.
  unfold process_history.
  destruct (history_loop lines _) as [[s cur]|] eqn:Hloop; simpl;
    [|discriminate].
  apply (history_loop_output lines []) in Hloop;
    [|left; split; [reflexivity|apply sublist_nil_l]].
  simpl in Hloop.
  destruct Hloop as [[-> Hc]|(first & Hcur & Hb & Hc)]; simpl.
  - intros [= <-]. exact Hc.
  - apply StrFacts.is_empty_false in Hcur. rewrite Hcur. simpl.
    destruct (_process_entry s cur) as [s'|] eqn:Hp; simpl; [|discriminate].
    intros [= <-]. simpl.
    destruct (process_entry_output _ _ _ _ Hb Hp) as [-> | ->]; [|exact Hc].
    etransitivity; [|exact Hc]. now apply sublist_inserts_r.
Qed.

Lemma output_is_sublist_of_input_witness :
  let lines := [": 1:0;ls" +:+ PyStr.newline;
                ": 2:0;ls  " +:+ PyStr.newline;
                ": 3:0;pwd" +:+ PyStr.newline; PyStr.newline] in
  exists self',
    process_history (new_cleaner 500 [] []) lines = Ok self'
    /\ cleaned_entries self' = [": 1:0;ls"%string; ": 3:0;pwd"%string]
    /\ cleaned_entries self' `sublist_of` map PyStr.rstrip_newlines lines.
Proof.
  intros lines. eexists. split; [reflexivity|]. split; [reflexivity|].
  apply (output_is_sublist_of_input 500 [] [] lines). reflexivity.
Defined.

(** ** The output and the commands seen *)

Lemma run_step_parsed (self self' : ZshHistoryCleaner) :
  run_step self self' ->
  self' = set_stats incr_malformed_removed self
  \/ exists timestamp_part command,
       entry_shape timestamp_part command
       /\ entry_outcome self timestamp_part command self'.
Proof.
  intros [s entry s' Hp|s]; [|now left].
  destruct (parse_history_entry entry) as [[ts cmd]|] eqn:Hparse.
  - right. exists ts, cmd. split.
    + now apply parse_history_entry_shape in Hparse.
    + now apply process_entry_outcome with entry.
  - left. rewrite (process_entry_malformed _ _ Hparse) in Hp. congruence.
Qed.

Lemma command_of_format (ts cmd : string) :
  entry_shape ts cmd -> command_of (format_entry ts cmd) = cmd.
Proof.
  intros H. unfold command_of.
  now destruct (entry_shape_parse _ _ H) as [-> _].
Qed.

Lemma keys_of_snoc (entries : list string) (ts cmd x : string) :
  entry_shape ts cmd ->
  x ∈ keys_of (entries ++ [format_entry ts cmd])
  <-> x ∈ keys_of entries \/ x = normalize_command cmd.
Proof.
  intros H. unfold keys_of. rewrite map_app. simpl.
  rewrite (command_of_format _ _ H).
  rewrite elem_of_app, elem_of_cons, elem_of_nil. tauto.
Qed.

Lemma run_step_seen_is_output (self self' : ZshHistoryCleaner) :
  run_step self self' -> seen_is_output self -> seen_is_output self'.
Proof.
  intros H Hinv. apply run_step_parsed in H
    as [->|(ts & cmd & Hshape & Hout)]; [exact Hinv|].
  destruct Hout; try exact Hinv; intros x; simpl;
    rewrite (keys_of_snoc _ _ _ _ Hshape), elem_of_union, elem_of_singleton,
      (Hinv x); tauto.
Qed.

Lemma run_step_first_of_its_key (self self' : ZshHistoryCleaner) :
  run_step self self' ->
  seen_is_output self -> first_of_its_key self -> first_of_its_key self'.
Proof.
  intros H Hseen Hinv.
  pose proof (run_step_same_config _ _ H) as Hcfg.
  assert (Hold : forall before line after,
            cleaned_entries self = before ++ line :: after ->
            check_ignore_rules self' (command_of line) = Ok false ->
            normalize_command (command_of line) ∉ keys_of before).
  { intros before line after E Hi. apply (Hinv before line after E).
    now destruct (same_config_checks self self' (command_of line) Hcfg)
      as (_ & -> & _). }
  assert (Hnew : forall ts cmd,
            entry_shape ts cmd ->
            (check_ignore_rules self cmd = Ok false ->
             normalize_command cmd ∉ seen_commands self) ->
            forall before line after,
              cleaned_entries self ++ [format_entry ts cmd]
              = before ++ line :: after ->
              check_ignore_rules self' (command_of line) = Ok false ->
              normalize_command (command_of line) ∉ keys_of before).
  { intros ts cmd Hshape Hfresh before line after E Hi.
    destruct after as [|z after _] using rev_ind.
    - apply app_inj_tail in E as [<- <-].
      rewrite (command_of_format _ _ Hshape) in *.
      rewrite <- (Hseen _). apply Hfresh.
      now destruct (same_config_checks self self' cmd Hcfg) as (_ & -> & _).
    - rewrite app_comm_cons, app_assoc in E.
      apply app_inj_tail in E as [E _]. now apply (Hold before line after). }
  apply run_step_parsed in H as [->|(ts & cmd & Hshape & Hout)];
    [exact Hold|].
  destruct Hout as [Ha|Ha Hi|Ha Hi Hw|r Ha Hi Hw Hr|r Ha Hi Hw Hin
                   |r Ha Hi Hw Hnin]; try exact Hold; simpl.
  - refine (Hnew ts cmd Hshape _). intros Hi'. congruence.
  - refine (Hnew ts cmd Hshape _). intros _. exact Hnin.
Qed.

Lemma run_steps_output_keys (self self' : ZshHistoryCleaner) :
  rtc run_step self self' ->
  seen_is_output self -> first_of_its_key self ->
  seen_is_output self' /\ first_of_its_key self'.
Proof.
  induction 1 as [s|s1 s2 s3 H12 _ IH]; [auto|].
  intros Hs Hf. apply IH.
  - now apply run_step_seen_is_output with s1.
  - now apply run_step_first_of_its_key with s1.
Qed.

Lemma process_history_output_keys
    (max_len : Z) (ignore allow : list FilterRule) (lines : list string)
    (self' : ZshHistoryCleaner) :
  process_history (new_cleaner max_len ignore allow) lines = Ok self' ->
  seen_is_output self' /\ first_of_its_key self'.
Proof.
  intros Hrun.
  apply process_history_run_steps in Hrun as (last & Hsteps & ->).
  apply run_steps_output_keys in Hsteps as [Hs Hf].
  - split; [exact Hs|exact Hf].
  - intros x. simpl. split; intros Hx;
      [now apply not_elem_of_empty in Hx|now apply elem_of_nil in Hx].
  - intros before line after E. simpl in E. now destruct before.
Qed.

(** X17. At the end of a completed run, the set of seen commands is the
    set of the normalised commands of the output entries: every kept
    entry is recorded, and nothing else is. *)
Theorem seen_commands_are_output_keys
    (max_len : Z) (ignore allow : list FilterRule) (lines : list string)
    (self' : ZshHistoryCleaner) (x : string) :
  process_history (new_cleaner max_len ignore allow) lines = Ok self' ->
  x ∈ seen_commands self' <-> x ∈ keys_of (cleaned_entries self').
Proof.
  intros Hrun. now apply process_history_output_keys in Hrun as [Hs _].
Qed.

Lemma seen_commands_are_output_keys_witness :
  let lines := [": 1:0;git  status" +:+ PyStr.newline;
                ": 2:0;" +:+ repeat_char "a" 20 +:+ PyStr.newline] in
  exists self',
    process_history (new_cleaner 500 [] []) lines = Ok self'
    /\ ("git status"%string ∈ seen_commands self'
        <-> "git status"%string ∈ keys_of (cleaned_entries self')).
Proof.
  intros lines. eexists. split; [reflexivity|].
  apply (seen_commands_are_output_keys 500 [] [] lines). reflexivity.
Defined.

(** X18. In the output of a completed run, an entry whose command matches
    no force-keep rule is the first of its duplicate key: no entry before
    it in the output has the same normalised command. *)
Theorem output_entry_first_of_its_key
    (max_len : Z) (ignore allow : list FilterRule) (lines : list string)
    (self' : ZshHistoryCleaner) (before after : list string) (line : string) :
  process_history (new_cleaner max_len ignore allow) lines = Ok self' ->
  cleaned_entries self' = before ++ line :: after ->
  check_rules ignore (command_of line) = Ok false ->
  normalize_command (command_of line) ∉ keys_of before.
Proof.
  intros Hrun E Hi.
  pose proof (process_history_run_steps _ _ _ Hrun) as (last & Hsteps & Hl).
  apply run_steps_same_config in Hsteps as (_ & Hcfg & _).
  apply process_history_output_keys in Hrun as [_ Hf].
  apply (Hf before line after E). unfold check_ignore_rules.
  subst self'. simpl in *. now rewrite <- Hcfg.
Qed.

Lemma output_entry_first_of_its_key_witness :
  let lines := [": 1:0;git commit -m x" +:+ PyStr.newline;
                ": 2:0;ls" +:+ PyStr.newline;
                ": 3:0;git commit -m x" +:+ PyStr.newline;
                ": 4:0;ls " +:+ PyStr.newline] in
  exists self',
    process_history (new_cleaner 500 [keep_git_commits] []) lines = Ok self'
    /\ cleaned_entries self'
       = [": 1:0;git commit -m x"%string] ++ ": 2:0;ls"%string
         :: [": 3:0;git commit -m x"%string]
    /\ normalize_command (command_of ": 2:0;ls")
       ∉ keys_of [": 1:0;git commit -m x"%string].
Proof.
  intros lines.
  assert (H : exists self',
            process_history (new_cleaner 500 [keep_git_commits] []) lines
            = Ok self'
            /\ cleaned_entries self'
               = [": 1:0;git commit -m x"%string] ++ ": 2:0;ls"%string
                 :: [": 3:0;git commit -m x"%string])
    by (eexists; split; reflexivity).
  destruct H as (s & Hrun & Hc). exists s.
  split; [exact Hrun|]. split; [exact Hc|].
  apply (output_entry_first_of_its_key 500 [keep_git_commits] [] lines s
           [": 1:0;git commit -m x"%string]
           [": 3:0;git commit -m x"%string] ": 2:0;ls" Hrun Hc).
  reflexivity.
Defined.

(** X19. Without force-keep rules, no two entries of the output have the
    same normalised command. *)
Theorem output_keys_distinct
    (max_len : Z) (allow : list FilterRule) (lines : list string)
    (self' : ZshHistoryCleaner) :
  process_history (new_cleaner max_len [] allow) lines = Ok self' ->
  NoDup (keys_of (cleaned_entries self')).
Proof.
  intros Hrun.
  assert (H : forall before line after,
            cleaned_entries self' = before ++ line :: after ->
            normalize_command (command_of line) ∉ keys_of before).
  { intros before line after E.
    pose proof (process_history_run_steps _ _ _ Hrun) as (last & Hsteps & Hl).
    apply run_steps_same_config in Hsteps as (_ & Hcfg & _).
    apply process_history_output_keys in Hrun as [_ Hf].
    apply (Hf before line after E). unfold check_ignore_rules.
    subst self'. simpl in *. now rewrite <- Hcfg. }
  revert H. generalize (cleaned_entries self'). clear.
  induction l as [|z l IH] using rev_ind; intros H; [constructor|].
  unfold keys_of in *. rewrite map_app. simpl.
  apply NoDup_app. split; [|split].
  - apply IH. intros before line after E.
    apply (H before line (after ++ [z])). rewrite E.
    now rewrite <- app_assoc.
  - intros x Hx Hz. apply list_elem_of_singleton in Hz. subst x.
    now apply (H l z []).
  - apply NoDup_singleton.
Qed.

Lemma output_keys_distinct_witness :
  let lines := [": 1:0;ls  -l" +:+ PyStr.newline;
                ": 2:0;pwd" +:+ PyStr.newline;
                ": 3:0;ls -l" +:+ PyStr.newline] in
  exists self',
    process_history (new_cleaner 500 [] []) lines = Ok self'
    /\ keys_of (cleaned_entries self') = ["ls -l"%string; "pwd"%string]
    /\ NoDup (keys_of (cleaned_entries self')).
Proof.
  intros lines. eexists. split; [reflexivity|]. split; [reflexivity|].
  apply (output_keys_distinct 500 [] lines). reflexivity.
Defined.

(** ** Writing the output and reading it again *)

(** X20. After a completed run on the lines of a file, writing the output
    and reading it back gives the kept entries, one per line, each
    followed by a line feed: no kept entry holds a carriage return or a
    line feed that would split it. *)
Theorem written_output_read_back
    (max_len : Z) (ignore allow : list FilterRule) (content : string)
    (first : ZshHistoryCleaner) :
  process_history (new_cleaner max_len ignore allow) (readlines content)
  = Ok first ->
  readlines (write_cleaned_history first)
  = map (fun entry => entry +:+ PyStr.newline) (cleaned_entries first).
Proof.
  intros Hfirst.
  apply process_history_kept_ok in Hfirst as (kept & Hok & Hlines).
  pose proof (kept_ok_lines_good _ _ Hok) as Hgood.
  unfold write_cleaned_history. rewrite Hlines.
  apply LineFacts.readlines_written.
  eapply Forall_impl; [exact Hgood|]. now intros e [He _].
Qed.

Lemma written_output_read_back_witness :
  let content :=
    ": 1:0;ls" +:+ one_char PyStr.CR +:+ PyStr.newline
    +:+ ": 2:0;pwd" +:+ one_char PyStr.CR +:+ ": 3:0;ls" in
  exists first,
    process_history (new_cleaner 500 [] []) (readlines content) = Ok first
    /\ readlines (write_cleaned_history first)
       = [": 1:0;ls" +:+ PyStr.newline; ": 2:0;pwd" +:+ PyStr.newline]
    /\ readlines (write_cleaned_history first)
       = map (fun entry => entry +:+ PyStr.newline) (cleaned_entries first).
Proof.
  intros content. eexists. split; [reflexivity|]. split; [reflexivity|].
  apply (written_output_read_back 500 [] [] content). reflexivity.
Defined.

Lemma second_pass_result
    (max_len : Z) (ignore allow : list FilterRule) (content : string)
    (first : ZshHistoryCleaner) :
  process_history (new_cleaner max_len ignore allow) (readlines content)
  = Ok first ->
  exists second,
    process_history (new_cleaner max_len ignore allow)
      (readlines (write_cleaned_history first)) = Ok second
    /\ cleaned_entries second = cleaned_entries first
    /\ length (readlines (write_cleaned_history first))
       = length (cleaned_entries first).
Proof.
  intros Hfirst.
  apply process_history_kept_ok in Hfirst as (kept & Hok & Hlines).
  pose proof (kept_ok_lines_good _ _ Hok) as Hgood.
  unfold write_cleaned_history. rewrite Hlines.
  rewrite LineFacts.readlines_written
    by (eapply Forall_impl; [exact Hgood|]; now intros e [He _]).
  rewrite (process_history_entries _ _ Hgood), length_map.
  destruct (process_entries_replay _ _ Hok
              (set_stats
                 (set_total_lines (Z.of_nat (length (lines_of kept))))
                 (new_cleaner max_len ignore allow)))
    as (s & Hrun & (_ & Hl & _) & _).
  { split; [repeat split|]. split; [reflexivity|]. intros x. simpl.
    split; intros Hx; [now apply not_elem_of_empty in Hx
                      |now apply elem_of_nil in Hx]. }
  rewrite Hrun. simpl. eexists. split; [reflexivity|]. simpl.
  split; [exact Hl|reflexivity].
Qed.

(** X21. Cleaning a cleaned history changes nothing: when the output of a
    completed run is written and cleaned again with the same rules and
    maximal length, every line is a valid entry and is kept, in the same
    order, and every removal counter of the second run is zero. *)
Theorem second_pass_removes_nothing
    (max_len : Z) (ignore allow : list FilterRule) (content : string)
    (first : ZshHistoryCleaner) :
  process_history (new_cleaner max_len ignore allow) (readlines content)
  = Ok first ->
  exists second,
    process_history (new_cleaner max_len ignore allow)
      (readlines (write_cleaned_history first)) = Ok second
    /\ cleaned_entries second = cleaned_entries first
    /\ total_lines (stats second) = final_entries (stats first)
    /\ valid_entries (stats second) = final_entries (stats first)
    /\ final_entries (stats second) = final_entries (stats first)
    /\ malformed_removed (stats second) = 0
    /\ allowed_removed (stats second) = 0
    /\ too_long_removed (stats second) = 0
    /\ pattern_removed (stats second) = 0
    /\ duplicates_removed (stats second) = 0.
Proof.
  intros Hfirst.
  destruct (second_pass_result _ _ _ _ _ Hfirst)
    as (second & Hsecond & Hclean & Hlen).
  exists second. split; [exact Hsecond|]. split; [exact Hclean|].
  assert (Hfinal : final_entries (stats first)
                   = Z.of_nat (length (cleaned_entries first))).
  { apply process_history_run_steps in Hfirst as (last & _ & ->).
    reflexivity. }
  apply process_history_counts in Hsecond as (last & Hsteps & -> & Hcount).
  pose proof (run_steps_accounted _ _ Hsteps eq_refl) as Hacc.
  pose proof (run_steps_total_lines _ _ Hsteps) as Htotal.
  assert (Hsane : sane_counters last).
  { apply (run_steps_sane _ _ Hsteps). unfold sane_counters. simpl. lia. }
  unfold sane_counters, accounted in *. simpl in *.
  rewrite Hclean in *. lia.
Qed.

Lemma second_pass_removes_nothing_witness :
  let content :=
    ": 1:0;git commit -m a" +:+ PyStr.newline
    +:+ ": 2:0;ls" +:+ PyStr.newline
    +:+ ": 3:0;ls " +:+ PyStr.newline
    +:+ "orphan" +:+ PyStr.newline
    +:+ ": 4:0;" +:+ repeat_char "=" 30 in
  let cfg := new_cleaner 500 [keep_git_commits] [] in
  exists first second,
    process_history cfg (readlines content) = Ok first
    /\ final_entries (stats first) = 2
    /\ process_history cfg (readlines (write_cleaned_history first))
       = Ok second
    /\ cleaned_entries second = cleaned_entries first
    /\ total_lines (stats second) = final_entries (stats first)
    /\ valid_entries (stats second) = final_entries (stats first)
    /\ final_entries (stats second) = final_entries (stats first)
    /\ malformed_removed (stats second) = 0
    /\ allowed_removed (stats second) = 0
    /\ too_long_removed (stats second) = 0
    /\ pattern_removed (stats second) = 0
    /\ duplicates_removed (stats second) = 0.
Proof.
  intros content cfg.
  assert (H1 : exists first,
             process_history cfg (readlines content) = Ok first
             /\ final_entries (stats first) = 2)
    by (eexists; split; reflexivity).
  destruct H1 as (first & H1 & Hf).
  destruct (second_pass_removes_nothing 500 [keep_git_commits] []
              content first H1) as (second & H2).
  exists first, second. split; [exact H1|]. split; [exact Hf|exact H2].
Defined.

(** ** The entry pattern, the match type, and the rules on trimmed commands *)

(** X22. What [parse_history_entry] accepts: exactly the texts made of a
    colon, a space, digits, a colon, digits, a semicolon and a command
    without line feed, followed by nothing or by one line feed; the time
    stamp is the digits with their colon and the command is returned as it
    stands. *)
Theorem parse_history_entry_meaning (line timestamp_part command : string) :
  parse_history_entry line = Some (timestamp_part, command)
  <-> entry_shape timestamp_part command
      /\ (line = format_entry timestamp_part command
          \/ line = format_entry timestamp_part command +:+ PyStr.newline).
Proof.
  split; [apply parse_history_entry_shape|].
  intros [Hshape [-> | ->]]; now apply entry_shape_parse.
Qed.

Lemma lower_char_idem (c : ascii) :
  PyStr.lower_char (PyStr.lower_char c) = PyStr.lower_char c.
Proof. destruct c as [[] [] [] [] [] [] [] []]; reflexivity. Qed.

Lemma lower_idem (s : string) : PyStr.lower (PyStr.lower s) = PyStr.lower s.
Proof.
  induction s as [|c s IH]; simpl; [reflexivity|].
  now rewrite lower_char_idem, IH.
Qed.

(** X23. The match type of a rule is read without regard to letter case:
    the constructor gives the same result for a match type and for its
    lower-case form. *)
Theorem match_type_case_irrelevant
    (re_compile : re_engine) (pat mt : string) (cs : bool) :
  FilterRule_init re_compile pat mt cs
  = FilterRule_init re_compile pat (PyStr.lower mt) cs.
Proof. unfold FilterRule_init. now rewrite lower_idem. Qed.

(** X24. A force-remove rule that matches the trimmed command only is
    counted with the patterns: when the command of a parsed entry matches
    no rule as parsed, is not empty once trimmed, and its trimmed form
    matches a force-remove rule, the entry is dropped with the reason
    allow_rule_match, and the counter that moves is [pattern_removed], not
    [allowed_removed]. *)
Theorem trimmed_allow_match_counted_as_pattern
    (self : ZshHistoryCleaner) (entry timestamp_part command : string) :
  parse_history_entry entry = Some (timestamp_part, command) ->
  check_allow_rules self command = Ok false ->
  check_ignore_rules self command = Ok false ->
  PyStr.strip command <> EmptyString ->
  check_allow_rules self (PyStr.strip command) = Ok true ->
  is_command_worth_keeping self command
  = Ok (false, "allow_rule_match"%string)
  /\ exists self',
       _process_entry self entry = Ok self'
       /\ cleaned_entries self' = cleaned_entries self
       /\ pattern_removed (stats self') = pattern_removed (stats self) + 1
       /\ allowed_removed (stats self') = allowed_removed (stats self).
Proof.
  intros Hparse Ha Hi Hne Hsa.
  assert (Hw : is_command_worth_keeping self command
               = Ok (false, "allow_rule_match"%string)).
  { unfold is_command_worth_keeping.
    apply StrFacts.is_empty_false in Hne. now rewrite Hne, Hsa. }
  split; [exact Hw|]. eexists. split.
  - apply entry_outcome_process with timestamp_part command; [exact Hparse|].
    apply outcome_pattern with "allow_rule_match"%string;
      [exact Ha|exact Hi|exact Hw|discriminate].
  - simpl. auto.
Qed.

Lemma trimmed_allow_match_counted_as_pattern_witness :
  let self := new_cleaner 500 [] [plain_rule "ls" "exact" true] in
  is_command_worth_keeping self "ls "
  = Ok (false, "allow_rule_match"%string)
  /\ exists self',
       _process_entry self ": 5:0;ls " = Ok self'
       /\ cleaned_entries self' = cleaned_entries self
       /\ pattern_removed (stats self') = pattern_removed (stats self) + 1
       /\ allowed_removed (stats self') = allowed_removed (stats self).
Proof.
  intros self.
  apply (trimmed_allow_match_counted_as_pattern self ": 5:0;ls " "5:0" "ls ");
    try reflexivity.
  discriminate.
Defined.
